(** * finance-chatbot: a shallow embedding of the symbol resolver, the market
    data gateway, the response composer and the transaction ledger.

    Sources: [src/finance_chatbot/app.py] and [src/finance_chatbot/finance_db.py].

    Conventions of the embedding.
    - A Python [str] is a [string]; the case and whitespace tables below are
      the ASCII part of Python's (a character above 127 is kept as it is).
    - A value decoded from JSON is a [pyval]; [dict.get], truthiness,
      subscripting, [float()] and [str.replace] follow Python on every
      constructor, raising where Python raises.
    - Effects are explicit: a computation is a function from the [world]
      (clock, memo tables of the two cached functions, log of the outbound
      requests) to a result or a raised exception, and the next [world].
    - What the interpreter or a remote party supplies (HTTP answers, the
      decimal parser behind [float(str)], number formatting, the generative
      model) is a field of the record [Env]. *)

From Stdlib Require Import String Ascii List ZArith Lia Bool.
From Stdlib Require Import Floats Uint63 Sorted Permutation.
Import ListNotations.
Open Scope list_scope.
Open Scope string_scope.

(** ** Python strings *)

Module PyStr.

(** The line feed and the double quote, as one-character strings. *)
Definition nl : string := String (ascii_of_nat 10) EmptyString.
Definition dq : string := String (ascii_of_nat 34) EmptyString.

(** [sep.join(parts)] with [sep] the line feed. *)
Fixpoint unlines (parts : list string) : string :=
  match parts with
  | [] => EmptyString
  | [p] => p
  | p :: rest => p ++ nl ++ unlines rest
  end.

(** [str.isspace] on one ASCII character: TAB, LF, VT, FF, CR, the four
    separators FS, GS, RS, US, and the space. *)
Definition is_space (c : ascii) : bool :=
  let n := nat_of_ascii c in
  (Nat.leb 9 n && Nat.leb n 13) || (Nat.leb 28 n && Nat.leb n 32).

(** [str.lower] on one ASCII character. *)
Definition lower_char (c : ascii) : ascii :=
  let n := nat_of_ascii c in
  if Nat.leb 65 n && Nat.leb n 90 then ascii_of_nat (n + 32) else c.

(** [s.lower()] *)
Fixpoint lower (s : string) : string :=
  match s with
  | EmptyString => EmptyString
  | String c s' => String (lower_char c) (lower s')
  end.

(** [s.lstrip()] *)
Fixpoint lstrip (s : string) : string :=
  match s with
  | EmptyString => EmptyString
  | String c s' => if is_space c then lstrip s' else s
  end.

(** [s.rstrip()]: a character is dropped when it is a space and nothing
    is left after it. *)
Fixpoint rstrip (s : string) : string :=
  match s with
  | EmptyString => EmptyString
  | String c s' =>
      match rstrip s' with
      | EmptyString => if is_space c then EmptyString else String c EmptyString
      | r => String c r
      end
  end.

(** [s.strip()] *)
Definition strip (s : string) : string := rstrip (lstrip s).

(** [sub in s]: [sub] occurs in [s] at some position. *)
Fixpoint contains (sub s : string) : bool :=
  prefix sub s ||
  match s with
  | EmptyString => false
  | String _ s' => contains sub s'
  end.

(** [any(word in s for word in words)] *)
Definition any_in (words : list string) (s : string) : bool :=
  existsb (fun word => contains word s) words.

(** [s[i:]] for a literal [i >= 0]. *)
Fixpoint drop (i : nat) (s : string) : string :=
  match i, s with
  | O, _ => s
  | S _, EmptyString => EmptyString
  | S i', String _ s' => drop i' s'
  end.

(** [s[i:j]] for literals [0 <= i <= j]. *)
Definition slice (i j : nat) (s : string) : string := substring i (j - i) s.

(** [s.replace(old, new)] for a one-character [old]. *)
Fixpoint replace_char (old : ascii) (new : string) (s : string) : string :=
  match s with
  | EmptyString => EmptyString
  | String c s' =>
      if Ascii.eqb c old then new ++ replace_char old new s'
      else String c (replace_char old new s')
  end.

End PyStr.
Import PyStr.

(** ** The symbol catalog ([app.py], lines 62-101)

    A dict literal is the list of its items in source order, which is the
    iteration order of a Python dict. *)

Definition dict (V : Type) : Type := list (string * V).

Definition INDIAN_STOCKS : dict string :=
  [ ("reliance", "RELIANCE.NS"); ("tcs", "TCS.NS"); ("infosys", "INFY.NS");
    ("hdfc bank", "HDFCBANK.NS"); ("icici bank", "ICICIBANK.NS"); ("sbi", "SBIN.NS");
    ("bharti airtel", "BHARTIARTL.NS"); ("itc", "ITC.NS"); ("wipro", "WIPRO.NS");
    ("maruti", "MARUTI.NS"); ("bajaj finance", "BAJFINANCE.NS"); ("asian paints", "ASIANPAINT.NS");
    ("tata motors", "TATAMOTORS.NS"); ("titan", "TITAN.NS"); ("adani enterprises", "ADANIENT.NS");
    ("nifty", "^NSEI"); ("sensex", "^BSESN"); ("bank nifty", "^NSEBANK") ].

Definition US_STOCKS : dict string :=
  [ ("apple", "AAPL"); ("microsoft", "MSFT"); ("google", "GOOGL"); ("amazon", "AMZN");
    ("tesla", "TSLA"); ("meta", "META"); ("nvidia", "NVDA"); ("netflix", "NFLX");
    ("facebook", "META"); ("alphabet", "GOOGL"); ("berkshire", "BRK-B");
    ("johnson", "JNJ"); ("walmart", "WMT"); ("visa", "V"); ("mastercard", "MA");
    ("sp500", "^GSPC"); ("nasdaq", "^IXIC"); ("dow", "^DJI") ].

Definition COMMODITIES : dict string :=
  [ ("gold", "GC=F"); ("silver", "SI=F"); ("crude oil", "CL=F"); ("brent oil", "BZ=F");
    ("natural gas", "NG=F"); ("copper", "HG=F"); ("platinum", "PL=F"); ("palladium", "PA=F");
    ("corn", "C=F"); ("wheat", "W=F"); ("soybeans", "S=F"); ("coffee", "KC=F");
    ("sugar", "SB=F"); ("cotton", "CT=F") ].

Definition FOREX_PAIRS : dict string :=
  [ ("eurusd", "EURUSD=X"); ("gbpusd", "GBPUSD=X"); ("usdjpy", "USDJPY=X");
    ("usdchf", "USDCHF=X"); ("audusd", "AUDUSD=X"); ("usdcad", "USDCAD=X");
    ("nzdusd", "NZDUSD=X"); ("usdinr", "USDINR=X"); ("eurjpy", "EURJPY=X");
    ("gbpjpy", "GBPJPY=X"); ("chfjpy", "CHFJPY=X"); ("eurgbp", "EURGBP=X") ].

Definition CRYPTO_PAIRS : dict string :=
  [ ("bitcoin", "BTC-USD"); ("ethereum", "ETH-USD"); ("cardano", "ADA-USD");
    ("solana", "SOL-USD"); ("dogecoin", "DOGE-USD"); ("litecoin", "LTC-USD");
    ("chainlink", "LINK-USD"); ("polygon", "MATIC-USD"); ("avalanche", "AVAX-USD") ].

(** ** Python dicts with string keys *)

(** [key in d] and [d[key]]: the value bound to [key], if any. *)
Fixpoint dict_get {V} (key : string) (d : dict V) : option V :=
  match d with
  | [] => None
  | (k, v) :: d' => if String.eqb key k then Some v else dict_get key d'
  end.

(** [d[key] = v]: a key already present keeps its place and takes the new
    value; a new key goes to the end. *)
Fixpoint dict_set {V} (key : string) (v : V) (d : dict V) : dict V :=
  match d with
  | [] => [(key, v)]
  | (k, v0) :: d' =>
      if String.eqb key k then (k, v) :: d' else (k, v0) :: dict_set key v d'
  end.

(** [{**acc, **d}] *)
Definition dict_update {V} (acc d : dict V) : dict V :=
  fold_left (fun a kv => dict_set (fst kv) (snd kv) a) d acc.

(** [{**d1, **d2, ...}] *)
Definition dict_merge {V} (ds : list (dict V)) : dict V :=
  fold_left dict_update ds [].

(** [all_symbols] of [find_symbol] ([app.py], line 179). *)
Definition all_symbols : dict string :=
  dict_merge [INDIAN_STOCKS; US_STOCKS; COMMODITIES; FOREX_PAIRS; CRYPTO_PAIRS].

(** ** Python values and exceptions *)

#[local] Set Warnings "-register-all".

(** What [response.json()] can hold. The keys of a JSON object are strings. *)
Inductive pyval : Type :=
| PNone
| PBool (b : bool)
| PInt (z : Z)
| PFloat (f : float)
| PStr (s : string)
| PList (items : list pyval)
| PDict (items : list (string * pyval)).

(** The exception classes the modelled code can meet; all of them derive
    from [Exception]. [RequestException] stands for every failure of
    [requests.get] (connection, timeout), [JSONDecodeError] for a body that
    is not JSON, [OperationalError] for sqlite3's, [GenerationError] for any
    failure inside the generative-model client. *)
Inductive exn : Type :=
| AttributeError | TypeError | ValueError | KeyError | OverflowError
| RequestException | JSONDecodeError | OperationalError | GenerationError.

Inductive res (A : Type) : Type :=
| Ok (a : A)
| Raise (e : exn).
Arguments Ok {A} a.
Arguments Raise {A} e.

(** [bool(v)] *)
Definition truthy (v : pyval) : bool :=
  match v with
  | PNone => false
  | PBool b => b
  | PInt z => negb (Z.eqb z 0)
  | PFloat f => negb (PrimFloat.eqb f 0%float)
  | PStr s => negb (String.eqb s "")
  | PList items => match items with [] => false | _ => true end
  | PDict items => match items with [] => false | _ => true end
  end.

(** [v.get(key, default)]: only a dict has the method. *)
Definition py_get (v : pyval) (key : string) (default : pyval) : res pyval :=
  match v with
  | PDict items =>
      match dict_get key items with
      | Some x => Ok x
      | None => Ok default
      end
  | _ => Raise AttributeError
  end.

(** [v[0]] for a truthy [v]. A dict decoded from JSON has no key [0]. *)
Definition py_item0 (v : pyval) : res pyval :=
  match v with
  | PList (x :: _) => Ok x
  | PStr (String c _) => Ok (PStr (String c EmptyString))
  | PDict _ => Raise KeyError
  | _ => Raise TypeError
  end.

(** [v.replace(old, new)] for a one-character [old]: only a str has it. *)
Definition py_replace (v : pyval) (old : ascii) (new : string) : res string :=
  match v with
  | PStr s => Ok (replace_char old new s)
  | _ => Raise AttributeError
  end.

(** Equality of two floats as data (a NaN is the same as itself, the two
    zeros differ): the test behind a memo key. *)
Definition float_same (a b : float) : bool :=
  match Prim2SF a, Prim2SF b with
  | S754_zero s1, S754_zero s2 => Bool.eqb s1 s2
  | S754_infinity s1, S754_infinity s2 => Bool.eqb s1 s2
  | S754_nan, S754_nan => true
  | S754_finite s1 m1 e1, S754_finite s2 m2 e2 =>
      Bool.eqb s1 s2 && Pos.eqb m1 m2 && Z.eqb e1 e2
  | _, _ => false
  end.

(** Equality of two values as memo keys: same type, same content. *)
Fixpoint pyval_eqb (a b : pyval) : bool :=
  match a, b with
  | PNone, PNone => true
  | PBool x, PBool y => Bool.eqb x y
  | PInt x, PInt y => Z.eqb x y
  | PFloat x, PFloat y => float_same x y
  | PStr x, PStr y => String.eqb x y
  | PList xs, PList ys =>
      (fix all2 (l1 l2 : list pyval) : bool :=
         match l1, l2 with
         | [], [] => true
         | x :: l1', y :: l2' => pyval_eqb x y && all2 l1' l2'
         | _, _ => false
         end) xs ys
  | PDict xs, PDict ys =>
      (fix all2 (l1 l2 : list (string * pyval)) : bool :=
         match l1, l2 with
         | [], [] => true
         | (k1, x) :: l1', (k2, y) :: l2' =>
             String.eqb k1 k2 && pyval_eqb x y && all2 l1' l2'
         | _, _ => false
         end) xs ys
  | _, _ => false
  end.

(** ** The world and the environment *)

(** An outbound request, by endpoint and by the texts that go into its
    URL ([app.py], lines 112, 137 and 192). *)
Inductive request : Type :=
| GlobalQuote (symbol : string)
| CurrencyExchangeRate (from_currency to_currency : string)
| SymbolSearch (keywords : string).

(** What [requests.get(url, timeout=10)] followed by [response.json()]
    gives: the decoded body, or the exception one of the two raised. *)
Inductive outcome : Type :=
| Failed (e : exn)
| Body (data : pyval).

(** The dict [get_yahoo_finance_data] returns ([app.py], lines 118-125). *)
Record quote : Type := {
  quote_symbol : pyval;
  quote_price : float;
  quote_change : float;
  quote_change_percent : string;
  quote_volume : pyval;
  quote_timestamp : Z
}.

(** The dict [get_forex_data] returns ([app.py], lines 143-147). *)
Record forex : Type := {
  forex_pair : string;
  forex_rate : float;
  forex_timestamp : pyval
}.

(** A memo table: key, time of storage (seconds), stored value; the most
    recent entry first. *)
Definition memo (K V : Type) : Type := list (K * (Z * V)).

Fixpoint memo_find {K V} (eqb : K -> K -> bool) (k : K) (m : memo K V)
  : option (Z * V) :=
  match m with
  | [] => None
  | (k', e) :: m' => if eqb k k' then Some e else memo_find eqb k m'
  end.

Record world : Type := {
  clock : Z;                                   (* seconds *)
  quote_memo : memo pyval (option quote);
  forex_memo : memo string (option forex);
  requests : list request                      (* most recent first *)
}.

(** What is outside of the repository. *)
Record Env : Type := {
  (** the answer to a request sent at a given time *)
  net : Z -> request -> outcome;
  (** [float(s)] for a str: [None] is [ValueError] *)
  float_of_str : string -> option float;
  (** [float(n)] for an int beyond 63 bits: [None] is [OverflowError] *)
  float_of_big_int : Z -> option float;
  (** [str(v)] for a value that is not a str *)
  str_of : pyval -> string;
  (** [format(x, '.2f')] and [format(x, '+.2f')] *)
  format_2f : float -> string;
  format_signed_2f : float -> string;
  (** [t.strftime('%Y-%m-%d %H:%M:%S')] *)
  strftime : Z -> string;
  (** [genai.GenerativeModel(name)] returns ([true]) or raises *)
  GenerativeModel : string -> bool;
  (** [model.generate_content(prompt).text] at a given time, for the model
      of the given name *)
  generate_content : Z -> string -> string -> res string
}.

(** ** Computations *)

Definition M (A : Type) : Type := world -> res A * world.

Definition ret {A} (a : A) : M A := fun w => (Ok a, w).

Definition raise {A} (e : exn) : M A := fun w => (Raise e, w).

Definition bind {A B} (m : M A) (k : A -> M B) : M B :=
  fun w =>
    match m w with
    | (Ok a, w') => k a w'
    | (Raise e, w') => (Raise e, w')
    end.

(** [try: m  except Exception: h] *)
Definition try_except {A} (m : M A) (h : exn -> M A) : M A :=
  fun w =>
    match m w with
    | (Ok a, w') => (Ok a, w')
    | (Raise e, w') => h e w'
    end.

Definition lift {A} (r : res A) : M A := fun w => (r, w).

Definition now : M Z := fun w => (Ok (clock w), w).

Notation "x <- m ;; k" := (bind m (fun x => k))
  (at level 61, m at next level, right associativity).

(** ** Streamlit's memo decorator

    [@st.cache_data(ttl=...)] is Streamlit's, not the repository's. As the
    library documents it: a call whose argument has an entry younger than
    [ttl] seconds returns the stored value and does not run the function;
    any other call runs it and stores what it returns, whatever that is
    ([None] too); a call that raises stores nothing. *)
Definition cache_data {K V} (eqb : K -> K -> bool) (ttl : Z)
    (table : world -> memo K V) (set_table : memo K V -> world -> world)
    (f : K -> M V) (k : K) : M V :=
  fun w =>
    let miss :=
      match f k w with
      | (Ok v, w') => (Ok v, set_table ((k, (clock w', v)) :: table w') w')
      | (Raise e, w') => (Raise e, w')
      end in
    match memo_find eqb k (table w) with
    | Some (t, v) => if (clock w <? t + ttl)%Z then (Ok v, w) else miss
    | None => miss
    end.

Definition set_quote_memo (m : memo pyval (option quote)) (w : world) : world :=
  {| clock := clock w; quote_memo := m;
     forex_memo := forex_memo w; requests := requests w |}.

Definition set_forex_memo (m : memo string (option forex)) (w : world) : world :=
  {| clock := clock w; quote_memo := quote_memo w;
     forex_memo := m; requests := requests w |}.

Definition log_request (r : request) (w : world) : world :=
  {| clock := clock w; quote_memo := quote_memo w;
     forex_memo := forex_memo w; requests := r :: requests w |}.

(** Time passing between two calls. *)
Definition advance (dt : Z) (w : world) : world :=
  {| clock := (clock w + dt)%Z; quote_memo := quote_memo w;
     forex_memo := forex_memo w; requests := requests w |}.

Section Gateway.

Variable E : Env.

(** [requests.get(url, timeout=10)] and [response.json()]: one outbound
    request, logged, answered by the environment. *)
Definition http_get_json (r : request) : M pyval :=
  fun w =>
    match net E (clock w) r with
    | Failed e => (Raise e, log_request r w)
    | Body data => (Ok data, log_request r w)
    end.

(** [float(n)] for an int: exact below 2^53, rounded to nearest above. *)
Definition float_of_int (z : Z) : res float :=
  if ((0 <=? z) && (z <? 2 ^ 63))%Z then Ok (of_uint63 (Uint63.of_Z z))
  else if ((- 2 ^ 63 <? z) && (z <? 0))%Z
       then Ok (- of_uint63 (Uint63.of_Z (- z)))%float
       else match float_of_big_int E z with
            | Some f => Ok f
            | None => Raise OverflowError
            end.

(** [float(v)] *)
Definition py_float (v : pyval) : res float :=
  match v with
  | PInt z => float_of_int z
  | PBool b => Ok (if b then 1%float else 0%float)
  | PFloat f => Ok f
  | PStr s =>
      match float_of_str E s with
      | Some f => Ok f
      | None => Raise ValueError
      end
  | PNone | PList _ | PDict _ => Raise TypeError
  end.

(** [f"{v}"] *)
Definition py_str (v : pyval) : string :=
  match v with
  | PStr s => s
  | _ => str_of E v
  end.

(** The body of [get_yahoo_finance_data] ([app.py], lines 110-128). The
    handler shows the error in the page and the function goes on to
    [return None]. *)
Definition get_yahoo_finance_data_body (symbol : pyval) : M (option quote) :=
  try_except
    (data <- http_get_json (GlobalQuote (py_str symbol)) ;;
     quote <- lift (py_get data "Global Quote" (PDict [])) ;;
     if truthy quote then
       sym <- lift (py_get quote "01. symbol" symbol) ;;
       p <- lift (py_get quote "05. price" (PInt 0)) ;;
       price <- lift (py_float p) ;;
       c <- lift (py_get quote "09. change" (PInt 0)) ;;
       change <- lift (py_float c) ;;
       cp <- lift (py_get quote "10. change percent" (PStr "0%")) ;;
       change_percent <- lift (py_replace cp "%"%char "") ;;
       volume <- lift (py_get quote "06. volume" (PStr "N/A")) ;;
       timestamp <- now ;;
       ret (Some {| quote_symbol := sym; quote_price := price;
                    quote_change := change;
                    quote_change_percent := change_percent;
                    quote_volume := volume;
                    quote_timestamp := timestamp |})
     else ret None)
    (fun _ => ret None).

(** [get_yahoo_finance_data]: the body under [@st.cache_data(ttl=300)]
    ([app.py], line 107). *)
Definition get_yahoo_finance_data : pyval -> M (option quote) :=
  cache_data pyval_eqb 300 quote_memo set_quote_memo
             get_yahoo_finance_data_body.

(** The two currency codes [get_forex_data] cuts out of [pair]
    ([app.py], lines 134-135). *)
Definition from_curr (pair : string) : string := slice 0 3 pair.

Definition to_curr (pair : string) : string :=
  if Nat.ltb 3 (String.length pair) then slice 3 6 pair else drop 3 pair.

(** The body of [get_forex_data] ([app.py], lines 133-150). *)
Definition get_forex_data_body (pair : string) : M (option forex) :=
  try_except
    (data <- http_get_json
               (CurrencyExchangeRate (from_curr pair) (to_curr pair)) ;;
     rate_data <- lift (py_get data "Realtime Currency Exchange Rate"
                               (PDict [])) ;;
     if truthy rate_data then
       r <- lift (py_get rate_data "5. Exchange Rate" (PInt 0)) ;;
       rate <- lift (py_float r) ;;
       ts <- lift (py_get rate_data "6. Last Refreshed" (PStr "")) ;;
       ret (Some {| forex_pair := from_curr pair ++ "/" ++ to_curr pair;
                    forex_rate := rate;
                    forex_timestamp := ts |})
     else ret None)
    (fun _ => ret None).

(** [get_forex_data]: the body under [@st.cache_data(ttl=300)]
    ([app.py], line 130). *)
Definition get_forex_data : string -> M (option forex) :=
  cache_data String.eqb 300 forex_memo set_forex_memo get_forex_data_body.

(** The loop of [find_symbol] over [all_symbols.items()]
    ([app.py], lines 186-188): the symbol of the first item that
    matches, if the loop returns. *)
Fixpoint partial_match (query : string) (items : dict string)
  : option string :=
  match items with
  | [] => None
  | (name, symbol) :: items' =>
      if contains query name || contains name query then Some symbol
      else partial_match query items'
  end.

(** [find_symbol] ([app.py], lines 174-201). [None] is [PNone]. *)
Definition find_symbol (query : string) : M pyval :=
  let query := strip (lower query) in
  match dict_get query all_symbols with
  | Some symbol => ret (PStr symbol)
  | None =>
      match partial_match query all_symbols with
      | Some symbol => ret (PStr symbol)
      | None =>
          try_except
            (data <- http_get_json (SymbolSearch query) ;;
             matches <- lift (py_get data "bestMatches" (PList [])) ;;
             if truthy matches then
               first <- lift (py_item0 matches) ;;
               lift (py_get first "1. symbol" PNone)
             else ret PNone)
            (fun _ => ret PNone)
      end
  end.

End Gateway.

(** ** The response composer *)

(** The five fixed answers of [generate_fallback_response]; each is the
    text between the triple quotes, line feeds and indentation included. *)

(** app.py, lines 275-293. *)
Definition market_overview_template : string :=
  unlines
    [ "";
      "        🌍 **Global Market Overview**";
      "        ";
      "        The global financial markets are interconnected and influenced by various factors:";
      "        ";
      "        📊 **Key Market Drivers**:";
      "        - Economic indicators (GDP, inflation, employment)";
      "        - Central bank policies and interest rates";
      "        - Geopolitical events and trade relations";
      "        - Corporate earnings and sector performance";
      "        ";
      "        🔍 **Current Focus Areas**:";
      "        - US Federal Reserve policy decisions";
      "        - China's economic recovery";
      "        - European energy markets";
      "        - Emerging market currencies";
      "        ";
      "        💡 **Investment Tip**: Diversification across regions and asset classes helps manage risk in volatile markets.";
      "        " ].

(** app.py, lines 297-315. *)
Definition forex_template : string :=
  unlines
    [ "";
      "        💱 **Forex Market Insights**";
      "        ";
      "        Currency markets are the most liquid financial markets globally, trading $7.5 trillion daily.";
      "        ";
      "        **Major Currency Pairs**:";
      "        - EUR/USD: Most traded pair, affected by ECB and Fed policies";
      "        - USD/JPY: Safe-haven flows influence this pair";
      "        - GBP/USD: Brexit and UK economic data drive movements";
      "        - USD/INR: Influenced by India's trade balance and RBI policies";
      "        ";
      "        **Key Factors Affecting Forex**:";
      "        - Interest rate differentials";
      "        - Economic growth rates";
      "        - Political stability";
      "        - Trade balances";
      "        ";
      "        ⚠️ **Risk Warning**: Forex trading involves high leverage and significant risk.";
      "        " ].

(** app.py, lines 319-336. *)
Definition commodity_template : string :=
  unlines
    [ "";
      "        🏆 **Commodity Market Analysis**";
      "        ";
      "        Commodities serve as inflation hedges and portfolio diversifiers.";
      "        ";
      "        **Precious Metals**:";
      "        - Gold: Traditional safe-haven asset, influenced by USD strength and inflation";
      "        - Silver: Industrial and investment demand drives prices";
      "        ";
      "        **Energy**:";
      "        - Crude Oil: Affected by supply disruptions, demand growth, and OPEC decisions";
      "        - Natural Gas: Seasonal demand and supply infrastructure impact prices";
      "        ";
      "        **Agricultural**:";
      "        - Weather patterns, crop yields, and global food demand influence prices";
      "        ";
      "        💡 **Investment Note**: Commodities can be volatile but provide portfolio diversification benefits.";
      "        " ].

(** app.py, lines 340-360. *)
Definition investment_template : string :=
  unlines
    [ "";
      "        💰 **Investment Strategy Guidance**";
      "        ";
      "        **Key Investment Principles**:";
      "        1. **Diversification**: Spread risk across asset classes and regions";
      "        2. **Time Horizon**: Align investments with your financial goals";
      "        3. **Risk Tolerance**: Only invest what you can afford to lose";
      "        4. **Regular Review**: Monitor and rebalance your portfolio";
      "        ";
      "        **Asset Allocation Guidelines**:";
      "        - **Conservative**: 60% bonds, 40% stocks";
      "        - **Moderate**: 50% stocks, 40% bonds, 10% alternatives";
      "        - **Aggressive**: 80% stocks, 15% bonds, 5% alternatives";
      "        ";
      "        **Before Investing**:";
      "        - Build an emergency fund (3-6 months expenses)";
      "        - Pay off high-interest debt";
      "        - Define clear financial goals";
      "        ";
      "        ⚠️ **Disclaimer**: This is educational content, not personalized financial advice.";
      "        " ].

(** app.py, lines 363-381. *)
Definition help_template : string :=
  unlines
    [ "";
      "        🤖 **Finance AI Assistant**";
      "        ";
      "        I'm here to help with your financial questions! I can provide information about:";
      "        ";
      "        📈 **Markets**: Stock prices, market analysis, and trends";
      "        💱 **Forex**: Currency exchange rates and trading insights  ";
      "        🏆 **Commodities**: Gold, oil, and other commodity prices";
      "        💰 **Investment**: Portfolio strategies and risk management";
      "        📊 **Analysis**: Technical and fundamental market analysis";
      "        ";
      "        **Try asking**:";
      "        - " ++ dq ++ "What's Apple's stock price?" ++ dq;
      "        - " ++ dq ++ "USD to INR exchange rate" ++ dq;
      "        - " ++ dq ++ "Gold price analysis" ++ dq;
      "        - " ++ dq ++ "Best investment strategies for beginners" ++ dq;
      "        ";
      "        How can I assist you with your financial needs today?";
      "        " ].

Section Composer.

Variable E : Env.

(** The f-string of the price branch ([app.py], lines 260-271). *)
Definition price_template (data : quote) (context_data : string) : string :=
  let change_indicator :=
    if (0 <=? quote_change data)%float then "📈" else "📉" in
  unlines
    [ "";
      "                " ++ change_indicator ++ " **"
        ++ py_str E (quote_symbol data) ++ " Current Price**: $"
        ++ format_2f E (quote_price data);
      "                **Change**: " ++ format_signed_2f E (quote_change data)
        ++ " (" ++ quote_change_percent data ++ "%)";
      "                **Volume**: " ++ py_str E (quote_volume data);
      "                **Last Updated**: " ++ strftime E (quote_timestamp data);
      "                ";
      "                " ++ context_data;
      "                ";
      "                💡 **Quick Analysis**: The stock is currently "
        ++ (if (0 <=? quote_change data)%float then "gaining" else "declining")
        ++ ". ";
      "                Consider checking recent news and market trends before making investment decisions.";
      "                " ].

(** [generate_fallback_response] ([app.py], lines 250-381). The value is
    what the call returns: a str, or [None] when the price branch ends
    without reaching its [return]. *)
Definition generate_fallback_response (user_query context_data : string)
  : M (option string) :=
  let query_lower := lower user_query in
  if any_in ["price"; "stock"; "share"] query_lower then
    symbol <- find_symbol E user_query ;;
    if truthy symbol then
      data <- get_yahoo_finance_data E symbol ;;
      match data with
      | Some d => ret (Some (price_template d context_data))
      | None => ret None
      end
    else ret None
  else if any_in ["market"; "global"; "overview"; "trend"] query_lower then
    ret (Some market_overview_template)
  else if any_in ["forex"; "currency"; "exchange"; "usd"; "eur"; "inr"]
                 query_lower then
    ret (Some forex_template)
  else if any_in ["gold"; "oil"; "commodity"; "silver"; "crude"]
                 query_lower then
    ret (Some commodity_template)
  else if any_in ["invest"; "portfolio"; "strategy"; "advice"]
                 query_lower then
    ret (Some investment_template)
  else
    ret (Some help_template).

(** The candidates of [generate_ai_response] ([app.py], line 207). *)
Definition model_names : list string :=
  ["gemini-1.5-flash"; "gemini-1.5-pro"; "gemini-pro"; "models/gemini-pro"].

(** The loop over the candidates ([app.py], lines 209-215): the first
    name whose model can be built. *)
Fixpoint first_model (names : list string) : option string :=
  match names with
  | [] => None
  | model_name :: names' =>
      if GenerativeModel E model_name then Some model_name
      else first_model names'
  end.

(** The f-string sent to the model ([app.py], lines 220-242). *)
Definition prompt (user_query context_data : string) : string :=
  unlines
    [ "";
      "        You are a highly knowledgeable financial advisor and market analyst with expertise in:";
      "        - Global stock markets (US, India, Europe, Asia)  ";
      "        - Forex trading and currency analysis";
      "        - Commodity markets and precious metals";
      "        - Cryptocurrency markets";
      "        - Economic indicators and market trends";
      "        - Personal finance and investment strategies";
      "        - Risk management and portfolio optimization";
      "        ";
      "        Current market context:";
      "        " ++ context_data;
      "        ";
      "        User question: " ++ user_query;
      "        ";
      "        Provide a comprehensive, accurate, and actionable response. Include:";
      "        - Relevant market data and analysis";
      "        - Investment insights and recommendations";
      "        - Risk factors to consider";
      "        - Current market trends";
      "        ";
      "        Keep the response conversational yet professional, around 150-200 words.";
      "        " ].

(** [generate_ai_response] ([app.py], lines 203-248). *)
Definition generate_ai_response (user_query context_data : string)
  : M (option string) :=
  try_except
    (match first_model model_names with
     | None => generate_fallback_response user_query context_data
     | Some model =>
         t <- now ;;
         text <- lift (generate_content E t model
                         (prompt user_query context_data)) ;;
         ret (Some text)
     end)
    (fun _ => generate_fallback_response user_query context_data).

End Composer.

(** ** The resolver in the words of the specification

    Written from the specification's description of [resolve], to be
    compared with [find_symbol]. *)

Module ResolveSpec.

(** "the merged alias table (equities + commodities + forex + crypto)",
    "equities tables merged before commodities, forex, crypto". *)
Definition merged_alias_table : dict string :=
  (INDIAN_STOCKS ++ US_STOCKS ++ COMMODITIES ++ FOREX_PAIRS ++ CRYPTO_PAIRS)%list.

(** "lowercase, strip leading/trailing whitespace" *)
Definition normalize (query : string) : string := strip (lower query).

(** "the normalized query is an exact key" *)
Definition exact_hit (q : string) : option (string * string) :=
  find (fun entry => String.eqb q (fst entry)) merged_alias_table.

(** "the first alias in table iteration order such that the query is a
    substring of the alias or the alias is a substring of the query" *)
Definition substring_hit (q : string) : option (string * string) :=
  find (fun entry => contains q (fst entry) || contains (fst entry) q)
       merged_alias_table.

(** "the first returned match's symbol field if present": the answer is
    an object whose ["bestMatches"] is an array that starts with an
    object, and that object has the field. *)
Definition first_remote_match (answer : outcome) : option pyval :=
  match answer with
  | Body (PDict fields) =>
      match dict_get "bestMatches" fields with
      | Some (PList (PDict first :: _)) => dict_get "1. symbol" first
      | _ => None
      end
  | _ => None
  end.

(** Whether one of the two local steps answers. *)
Definition local_hit (q : string) : option string :=
  match exact_hit q with
  | Some entry => Some (snd entry)
  | None =>
      match substring_hit q with
      | Some entry => Some (snd entry)
      | None => None
      end
  end.

(** [resolve]: the value ([PNone] is NotFound) for the answer the search
    endpoint gives to the normalized query at the time of the call. *)
Definition resolve (E : Env) (t : Z) (query : string) : pyval :=
  let q := normalize query in
  match local_hit q with
  | Some symbol => PStr symbol
  | None =>
      match first_remote_match (net E t (SymbolSearch q)) with
      | Some symbol => symbol
      | None => PNone
      end
  end.

(** The requests [resolve] sends: one search, and only when no local
    step answers. *)
Definition resolve_requests (query : string) : list request :=
  match local_hit (normalize query) with
  | Some _ => []
  | None => [SymbolSearch (normalize query)]
  end.

End ResolveSpec.

(** ** The transaction ledger ([finance_db.py]) *)

Module Ledger.

(** A row of the table [transactions]; also the dict
    [get_all_transactions] builds from it. *)
Record transaction : Type := {
  id : Z;
  category : string;
  amount : float;
  date : string
}.

(** The file [finance.db]: the table, once created, with its rows in
    insertion order, and the largest id the AUTOINCREMENT column has
    given out. *)
Record database : Type := {
  transactions : option (list transaction);
  last_id : Z
}.

(** A file that does not exist yet. *)
Definition no_database : database :=
  {| transactions := None; last_id := 0 |}.

(** A calendar day, as [datetime.date] holds it. *)
Record day : Type := { year : nat; month : nat; day_of_month : nat }.

Definition digit (n : nat) : ascii := ascii_of_nat (48 + n mod 10).

Definition two_digits (n : nat) : string :=
  String (digit (n / 10)) (String (digit n) EmptyString).

(** [d.isoformat()]: [YYYY-MM-DD], for a day in range. *)
Definition isoformat (d : day) : string :=
  two_digits (year d / 100) ++ two_digits (year d mod 100)
    ++ "-" ++ two_digits (month d) ++ "-" ++ two_digits (day_of_month d).

(** The days [datetime.date] can hold: years 1 to 9999. *)
Definition in_range (d : day) : Prop :=
  1 <= year d <= 99 * 100 + 99
  /\ 1 <= month d <= 12 /\ 1 <= day_of_month d <= 31.

(** The order of the calendar. *)
Definition day_compare (d1 d2 : day) : comparison :=
  match Nat.compare (year d1) (year d2) with
  | Eq =>
      match Nat.compare (month d1) (month d2) with
      | Eq => Nat.compare (day_of_month d1) (day_of_month d2)
      | c => c
      end
  | c => c
  end.

(** [init_db]: [CREATE TABLE IF NOT EXISTS]. *)
Definition init_db (db : database) : res unit * database :=
  match transactions db with
  | Some _ => (Ok tt, db)
  | None => (Ok tt, {| transactions := Some []; last_id := last_id db |})
  end.

(** [add_transaction(category, amount, date=None)], called on the day
    [today]. The INSERT fails when the table is missing, and when the
    ids are used up. *)
Definition add_transaction (today : day) (category : string)
    (amount : float) (date : option string) (db : database)
  : res unit * database :=
  let date := match date with
              | None => isoformat today
              | Some d => d
              end in
  match transactions db with
  | None => (Raise OperationalError, db)
  | Some rows =>
      if (last_id db <? 2 ^ 63 - 1)%Z then
        let row := {| id := (last_id db + 1)%Z; category := category;
                      amount := amount; date := date |} in
        (Ok tt, {| transactions := Some (rows ++ [row])%list;
                   last_id := (last_id db + 1)%Z |})
      else (Raise OperationalError, db)
  end.

(** The order of [ORDER BY date] on a TEXT column: byte by byte, a
    proper prefix first. *)
Definition date_leb (r1 r2 : transaction) : bool :=
  String.leb (date r1) (date r2).

Definition date_le (r1 r2 : transaction) : Prop := date_leb r1 r2 = true.

Fixpoint insert_by_date (r : transaction) (sorted : list transaction)
  : list transaction :=
  match sorted with
  | [] => [r]
  | r' :: rest =>
      if date_leb r r' then r :: sorted else r' :: insert_by_date r rest
  end.

(** [ORDER BY date]; rows of equal date are left in insertion order. *)
Definition order_by_date (rows : list transaction) : list transaction :=
  fold_right insert_by_date [] rows.

(** [get_all_transactions] *)
Definition get_all_transactions (db : database)
  : res (list transaction) :=
  match transactions db with
  | None => Raise OperationalError
  | Some rows => Ok (order_by_date rows)
  end.

End Ledger.

(** ** Predicates and sample environments of the statements below *)

(** A query made of whitespace only (the empty query included). *)
Fixpoint all_space (s : string) : bool :=
  match s with
  | EmptyString => true
  | String c s' => is_space c && all_space s'
  end.

(** Every item of the five catalog tables. *)
Definition catalog : dict string :=
  (INDIAN_STOCKS ++ US_STOCKS ++ COMMODITIES ++ FOREX_PAIRS ++ CRYPTO_PAIRS)%list.

(** What the two gateways give the price branch of the fallback composer
    for a query in a world: the resolved symbol, and the quote fetched for
    it when the symbol is truthy. *)
Definition gateway_results (E : Env) (user_query : string) (w : world)
  : res pyval * res (option quote) :=
  let (r, w') := find_symbol E user_query w in
  (r, match r with
      | Ok symbol =>
          if truthy symbol then fst (get_yahoo_finance_data E symbol w')
          else Ok None
      | Raise e => Raise e
      end).

(** Every stored forex answer carries the label cut out of its own key:
    the invariant of the forex memo table. *)
Definition forex_entry_ok (entry : string * (Z * option forex)) : bool :=
  match entry with
  | (k, (_, Some r)) =>
      String.eqb (forex_pair r) (from_curr k ++ "/" ++ to_curr k)
  | (_, (_, None)) => true
  end.

Definition forex_memo_ok (w : world) : bool :=
  forallb forex_entry_ok (forex_memo w).

(** The keyword lists of the four buckets checked before the last one
    ([app.py], lines 255, 274, 296 and 318). *)
Definition price_words : list string := ["price"; "stock"; "share"].
Definition market_words : list string :=
  ["market"; "global"; "overview"; "trend"].
Definition forex_words : list string :=
  ["forex"; "currency"; "exchange"; "usd"; "eur"; "inr"].
Definition commodity_words : list string :=
  ["gold"; "oil"; "commodity"; "silver"; "crude"].

(** The world at start-up: nothing stored, nothing sent. *)
Definition initial_world : world :=
  {| clock := 0; quote_memo := []; forex_memo := []; requests := [] |}.

(** No network, and a generative model that can be built but whose call
    fails (no API key). *)
Definition offline : Env :=
  {| net := fun _ _ => Failed RequestException;
     float_of_str := fun _ => None;
     float_of_big_int := fun _ => None;
     str_of := fun _ => "";
     format_2f := fun _ => "";
     format_signed_2f := fun _ => "";
     strftime := fun _ => "";
     GenerativeModel := fun _ => true;
     generate_content := fun _ _ _ => Raise GenerationError |}.

(** A network that is down at time 0 and answers from then on: a quote
    object with the symbol alone, a rate of 1.25. *)
Definition recovering : Env :=
  {| net := fun t r =>
       if (t <=? 0)%Z then Failed RequestException
       else match r with
            | GlobalQuote s =>
                Body (PDict [("Global Quote", PDict [("01. symbol", PStr s)])])
            | CurrencyExchangeRate _ _ =>
                Body (PDict [("Realtime Currency Exchange Rate",
                              PDict [("5. Exchange Rate", PStr "1.25");
                                     ("6. Last Refreshed",
                                      PStr "2024-01-02 03:04:05")])])
            | SymbolSearch _ => Body (PDict [("bestMatches", PList [])])
            end;
     float_of_str := fun s =>
       if String.eqb s "1.25" then Some 1.25%float else None;
     float_of_big_int := fun _ => None;
     str_of := fun _ => "";
     format_2f := fun _ => "";
     format_signed_2f := fun _ => "";
     strftime := fun _ => "";
     GenerativeModel := fun _ => false;
     generate_content := fun _ _ _ => Raise GenerationError |}.

(** ** The stand-alone quote helper ([finance_stocks.py]) *)

Module Stocks.

(** [get_stock_price] ([finance_stocks.py], lines 5-20). The request is
    the one of the quote gateway; [requests.get] has no timeout here. *)
Definition get_stock_price (E : Env) (symbol : pyval) : M string :=
  try_except
    (resp <- http_get_json E (GlobalQuote (py_str E symbol)) ;;
     quote <- lift (py_get resp "Global Quote" (PDict [])) ;;
     price <- lift (py_get quote "05. price" PNone) ;;
     change <- lift (py_get quote "10. change percent" PNone) ;;
     if truthy price && truthy change then
       ret (py_str E symbol ++ " price: $" ++ py_str E price
              ++ ", Change: " ++ py_str E change)
     else
       ret ("Could not fetch data for " ++ py_str E symbol ++ "."))
    (fun _ => ret ("Error fetching stock data for " ++ py_str E symbol ++ ".")).

End Stocks.

(** ** Computations over a larger state

    The news gateway and the chat page keep state of their own beside the
    [world] of the market gateways. *)

Definition ST (S A : Type) : Type := S -> res A * S.

Definition st_ret {S A} (a : A) : ST S A := fun s => (Ok a, s).

Definition st_bind {S A B} (m : ST S A) (k : A -> ST S B) : ST S B :=
  fun s =>
    match m s with
    | (Ok a, s') => k a s'
    | (Raise e, s') => (Raise e, s')
    end.

Definition st_try {S A} (m : ST S A) (h : exn -> ST S A) : ST S A :=
  fun s =>
    match m s with
    | (Ok a, s') => (Ok a, s')
    | (Raise e, s') => h e s'
    end.

Definition st_lift {S A} (r : res A) : ST S A := fun s => (r, s).

Notation "x <~ m ;; k" := (st_bind m (fun x => k))
  (at level 61, m at next level, right associativity).

Definition res_bind {A B} (r : res A) (k : A -> res B) : res B :=
  match r with
  | Ok a => k a
  | Raise e => Raise e
  end.

(** [for x in v]: the items a loop over [v] visits. A str gives its
    characters, a dict its keys; the other values are not iterable. *)
Definition py_iter (v : pyval) : res (list pyval) :=
  match v with
  | PList items => Ok items
  | PStr s =>
      Ok (map (fun c => PStr (String c EmptyString)) (list_ascii_of_string s))
  | PDict items => Ok (map (fun kv => PStr (fst kv)) items)
  | _ => Raise TypeError
  end.

(** [needle in v] for a str [needle]: a substring of a str, an item of a
    list, a key of a dict. *)
Definition py_in (needle : string) (v : pyval) : res bool :=
  match v with
  | PStr s => Ok (contains needle s)
  | PList items => Ok (existsb (pyval_eqb (PStr needle)) items)
  | PDict items =>
      Ok match dict_get needle items with
         | Some _ => true
         | None => false
         end
  | _ => Raise TypeError
  end.

(** [s.endswith(suffix)] on strs. *)
Definition ends_with (s suffix : string) : bool :=
  Nat.leb (String.length suffix) (String.length s)
  && String.eqb (drop (String.length s - String.length suffix) s) suffix.

(** [v.endswith(suffix)]: only a str has the method. *)
Definition py_endswith (v : pyval) (suffix : string) : res bool :=
  match v with
  | PStr s => Ok (ends_with s suffix)
  | _ => Raise AttributeError
  end.

(** [sep.join(parts)]: every part must be a str. *)
Fixpoint py_join (sep : string) (parts : list pyval) : res string :=
  match parts with
  | [] => Ok EmptyString
  | PStr s :: rest =>
      match rest with
      | [] => Ok s
      | _ => res_bind (py_join sep rest) (fun r => Ok (s ++ sep ++ r))
      end
  | _ :: _ => Raise TypeError
  end.

(** ** The news gateways ([app.py], lines 152-172; [finance_news.py]) *)

Module News.

(** A request to the headlines endpoint, by the values that go into its
    URL: [app.py], line 156, and [finance_news.py], line 9. *)
Inductive news_request : Type :=
| TopHeadlines (category country : string) (page_size : Z)
| BusinessHeadlines (page_size : Z).

(** The answer of the headlines endpoint to a request sent at a given
    time. *)
Record NewsEnv : Type := {
  headlines : Z -> news_request -> outcome
}.

(** The dict [get_financial_news] builds for an article
    ([app.py], lines 162-168); a value is whatever the JSON held. *)
Record news_item : Type := {
  title : pyval;
  description : pyval;
  source : pyval;
  url : pyval;
  publishedAt : pyval
}.

(** A chat message of [st.session_state.messages]; the content of an
    assistant message is what [generate_ai_response] returned. *)
Record message : Type := {
  role : string;
  content : option string
}.

(** The state of a session: the world of the market gateways, the memo
    table and the request log of the news gateway, the chat history. *)
Record session : Type := {
  market : world;
  news_memo : memo (string * string * Z) (list news_item);
  news_requests : list news_request;
  messages : list message
}.

Definition set_market (w : world) (s : session) : session :=
  {| market := w; news_memo := news_memo s;
     news_requests := news_requests s; messages := messages s |}.

Definition set_news_memo (m : memo (string * string * Z) (list news_item))
    (s : session) : session :=
  {| market := market s; news_memo := m;
     news_requests := news_requests s; messages := messages s |}.

Definition log_news_request (r : news_request) (s : session) : session :=
  {| market := market s; news_memo := news_memo s;
     news_requests := r :: news_requests s; messages := messages s |}.

(** [st.session_state.messages.append(m)] *)
Definition append_message (m : message) : ST session unit :=
  fun s =>
    (Ok tt, {| market := market s; news_memo := news_memo s;
               news_requests := news_requests s;
               messages := (messages s ++ [m])%list |}).

(** A call into the market gateways from the page. *)
Definition in_market {A} (m : M A) : ST session A :=
  fun s => let (r, w') := m (market s) in (r, set_market w' s).

(** The memo decorator over a session: as [cache_data]. *)
Definition cache_data_session {K V} (eqb : K -> K -> bool) (ttl : Z)
    (table : session -> memo K V) (set_table : memo K V -> session -> session)
    (f : K -> ST session V) (k : K) : ST session V :=
  fun s =>
    let miss :=
      match f k s with
      | (Ok v, s') =>
          (Ok v, set_table ((k, (clock (market s'), v)) :: table s') s')
      | (Raise e, s') => (Raise e, s')
      end in
    match memo_find eqb k (table s) with
    | Some (t, v) => if (clock (market s) <? t + ttl)%Z then (Ok v, s) else miss
    | None => miss
    end.

Section Gateways.

Variable E : Env.
Variable NE : NewsEnv.

(** [requests.get(url)] and [response.json()] on the headlines
    endpoint. *)
Definition news_get_json (r : news_request) : ST session pyval :=
  fun s =>
    match headlines NE (clock (market s)) r with
    | Failed e => (Raise e, log_news_request r s)
    | Body data => (Ok data, log_news_request r s)
    end.

(** The dict built for one article ([app.py], lines 162-168). *)
Definition news_item_of (article : pyval) : res news_item :=
  res_bind (py_get article "title" (PStr "")) (fun t =>
  res_bind (py_get article "description" (PStr "")) (fun d =>
  res_bind (py_get article "source" (PDict [])) (fun src =>
  res_bind (py_get src "name" (PStr "")) (fun name =>
  res_bind (py_get article "url" (PStr "")) (fun u =>
  res_bind (py_get article "publishedAt" (PStr "")) (fun p =>
  Ok {| title := t; description := d; source := name;
        url := u; publishedAt := p |})))))).

(** The loop of [get_financial_news] ([app.py], lines 160-168). *)
Fixpoint collect_articles (articles : list pyval) : res (list news_item) :=
  match articles with
  | [] => Ok []
  | article :: rest =>
      res_bind (news_item_of article) (fun item =>
      res_bind (collect_articles rest) (fun items => Ok (item :: items)))
  end.

(** The body of [get_financial_news] ([app.py], lines 155-172). *)
Definition get_financial_news_body (key : string * string * Z)
  : ST session (list news_item) :=
  let '(category, country, top_n) := key in
  st_try
    (data <~ news_get_json (TopHeadlines category country top_n) ;;
     found <~ st_lift (py_get data "articles" (PList [])) ;;
     articles <~ st_lift (py_iter found) ;;
     st_lift (collect_articles articles))
    (fun _ => st_ret []).

Definition news_key_eqb (k1 k2 : string * string * Z) : bool :=
  let '(c1, n1, t1) := k1 in
  let '(c2, n2, t2) := k2 in
  String.eqb c1 c2 && String.eqb n1 n2 && Z.eqb t1 t2.

(** [get_financial_news(category, country, top_n)]: the body under
    [@st.cache_data(ttl=1800)] ([app.py], line 152). *)
Definition get_financial_news (category country : string) (top_n : Z)
  : ST session (list news_item) :=
  cache_data_session news_key_eqb 1800 news_memo set_news_memo
    get_financial_news_body (category, country, top_n).

(** The line built for one article ([finance_news.py], lines 15-17). *)
Definition news_line_of (a : pyval) : res string :=
  res_bind (py_get a "title" (PStr "")) (fun t =>
  res_bind (py_get a "source" (PDict [])) (fun src =>
  res_bind (py_get src "name" (PStr "")) (fun name =>
  Ok (py_str E t ++ " (" ++ py_str E name ++ ")")))).

Fixpoint collect_lines (articles : list pyval) : res (list string) :=
  match articles with
  | [] => Ok []
  | a :: rest =>
      res_bind (news_line_of a) (fun line =>
      res_bind (collect_lines rest) (fun lines => Ok (line :: lines)))
  end.

(** [get_latest_finance_news(top_n)] ([finance_news.py], lines 5-21). *)
Definition get_latest_finance_news (top_n : Z) : ST session (list string) :=
  st_try
    (resp <~ news_get_json (BusinessHeadlines top_n) ;;
     found <~ st_lift (py_get resp "articles" (PList [])) ;;
     articles <~ st_lift (py_iter found) ;;
     st_lift (collect_lines articles))
    (fun _ => st_ret ["Could not fetch news at this time."]).

(** The keywords that make the page look a symbol up
    ([app.py], line 499). *)
Definition lookup_words : list string :=
  ["price"; "stock"; "rate"; "forex"; "commodity"].

(** The market part of the context ([app.py], lines 499-510). Both
    branches of the test on the symbol call the same function; the test
    itself is evaluated. *)
Definition market_context (prompt : string) : ST session string :=
  if any_in lookup_words (lower prompt) then
    symbol <~ in_market (find_symbol E prompt) ;;
    if truthy symbol then
      has_eq <~ st_lift (py_in "=" symbol) ;;
      _ <~ (if has_eq then st_ret true
            else st_lift (py_endswith symbol "=X")) ;;
      market_data <~ in_market (get_yahoo_finance_data E symbol) ;;
      match market_data with
      | Some d =>
          st_ret ("Current data for " ++ py_str E symbol
                    ++ ": Price: " ++ py_str E (PFloat (quote_price d))
                    ++ ", Change: " ++ py_str E (PFloat (quote_change d))
                    ++ " (" ++ quote_change_percent d ++ "%)")
      | None => st_ret ""
      end
    else st_ret ""
  else st_ret "".

(** The news part of the context ([app.py], lines 513-516), added to
    what the market part gave. *)
Definition news_context (context_data : string) : ST session string :=
  news <~ get_financial_news "business" "us" 3 ;;
  match news with
  | [] => st_ret context_data
  | _ :: _ =>
      joined <~ st_lift (py_join "; " (map title (firstn 3 news))) ;;
      st_ret (context_data ++ nl ++ "Recent financial news: " ++ joined)
  end.

(** What [main] does with a prompt typed in the chat box
    ([app.py], lines 485-524), rendering left out: the user message goes
    to the history, the context is built, the answer is generated and
    goes to the history. Nothing here catches an exception. *)
Definition chat_turn (prompt : string) : ST session unit :=
  _ <~ append_message {| role := "user"; content := Some prompt |} ;;
  context_data <~ market_context prompt ;;
  context_data <~ news_context context_data ;;
  response <~ in_market (generate_ai_response E prompt context_data) ;;
  append_message {| role := "assistant"; content := response |}.

End Gateways.

End News.

(** ** Predicates and samples of the further properties *)

(** The test of the substring step of [find_symbol] on one item. *)
Definition alias_matches (q : string) (entry : string * string) : bool :=
  contains q (fst entry) || contains (fst entry) q.

(** A text that is empty or starts with something else than a space. *)
Definition starts_clean (s : string) : Prop :=
  match s with
  | EmptyString => True
  | String c _ => is_space c = false
  end.

(** Every stored quote was stored at the time it carries, and nothing
    was stored in the future: the invariant of the quote memo table. *)
Definition quote_entry_ok (clock_now : Z)
    (entry : pyval * (Z * option quote)) : bool :=
  let '(_, (t, v)) := entry in
  (t <=? clock_now)%Z
  && match v with
     | Some d => (quote_timestamp d =? t)%Z
     | None => true
     end.

Definition quote_memo_ok (w : world) : bool :=
  forallb (quote_entry_ok (clock w)) (quote_memo w).

(** The five fixed answers of the fallback composer. *)
Definition fixed_templates : list string :=
  [market_overview_template; forex_template; commodity_template;
   investment_template; help_template].

(** The ids of the stored rows go up strictly, from above [lo] to at
    most [hi]. *)
Fixpoint ids_between (lo hi : Z) (rows : list Ledger.transaction) : bool :=
  match rows with
  | [] => (lo <=? hi)%Z
  | r :: rest => (lo <? Ledger.id r)%Z && ids_between (Ledger.id r) hi rest
  end.

(** The invariant of the ledger: the ids of the rows are positive, go
    up in insertion order and stay within the counter. *)
Definition ledger_ok (db : Ledger.database) : bool :=
  match Ledger.transactions db with
  | None => (0 <=? Ledger.last_id db)%Z
  | Some rows => ids_between 0 (Ledger.last_id db) rows
  end.

(** The number of quote requests in a log. *)
Fixpoint quote_requests (log : list request) : nat :=
  match log with
  | [] => 0
  | GlobalQuote _ :: log' => S (quote_requests log')
  | _ :: log' => quote_requests log'
  end.

(** A session at start-up. *)
Definition initial_session : News.session :=
  {| News.market := initial_world; News.news_memo := [];
     News.news_requests := []; News.messages := [] |}.

(** A session with the clock of the market world moved. *)
Definition session_at (t : Z) : News.session :=
  News.set_market (advance t initial_world) initial_session.

(** A headlines endpoint that is down. *)
Definition headlines_down : News.NewsEnv :=
  {| News.headlines := fun _ _ => Failed RequestException |}.

(** A headlines endpoint that answers with two articles. *)
Definition headlines_two : News.NewsEnv :=
  {| News.headlines := fun _ _ =>
       Body (PDict [("status", PStr "ok");
                    ("articles",
                     PList [PDict [("title", PStr "Markets rally");
                                   ("source", PDict [("name", PStr "Wire")])];
                            PDict [("title", PStr "Rates on hold");
                                   ("description", PNone);
                                   ("source", PDict [("id", PNone);
                                                     ("name", PStr "Desk")])]])]) |}.

(** A headlines endpoint whose second article has a null title. *)
Definition headlines_null_title : News.NewsEnv :=
  {| News.headlines := fun _ _ =>
       Body (PDict [("articles",
                     PList [PDict [("title", PStr "Markets rally");
                                   ("source", PDict [("name", PStr "Wire")])];
                            PDict [("title", PNone);
                                   ("source", PDict [("name", PStr "Desk")])]])]) |}.

(** A headlines endpoint whose second article has a null source. *)
Definition headlines_null_source : News.NewsEnv :=
  {| News.headlines := fun _ _ =>
       Body (PDict [("articles",
                     PList [PDict [("title", PStr "Markets rally");
                                   ("source", PDict [("name", PStr "Wire")])];
                            PDict [("title", PStr "Rates on hold");
                                   ("source", PNone)]])]) |}.

(** A step of the page that leaves the chat history as it is. *)
Definition keeps_messages {A} (m : ST News.session A) : Prop :=
  forall s, News.messages (snd (m s)) = News.messages s.

(** A step of the page that leaves the world of the market gateways as
    it is. *)
Definition keeps_market {A} (m : ST News.session A) : Prop :=
  forall s, News.market (snd (m s)) = News.market s.

(** The quote memo table holds an entry for the symbol that is younger
    than 300 seconds. *)
Definition has_fresh_quote (symbol : pyval) (w : world) : bool :=
  match memo_find pyval_eqb symbol (quote_memo w) with
  | Some (t, _) => (clock w <? t + 300)%Z
  | None => false
  end.

(** A step of the page from which only a [TypeError] or an
    [AttributeError] can escape. *)
Definition raises_only_type_errors {A} (m : ST News.session A) : Prop :=
  forall s e, fst (m s) = Raise e -> e = TypeError \/ e = AttributeError.

(** A search endpoint that gives a number for the symbol of its first
    match; everything else is down. *)
Definition search_gives_number : Env :=
  {| net := fun _ r =>
       match r with
       | SymbolSearch _ =>
           Body (PDict [("bestMatches",
                         PList [PDict [("1. symbol", PInt 7)]])])
       | _ => Failed RequestException
       end;
     float_of_str := fun _ => None;
     float_of_big_int := fun _ => None;
     str_of := fun _ => "7";
     format_2f := fun _ => "";
     format_signed_2f := fun _ => "";
     strftime := fun _ => "";
     GenerativeModel := fun _ => false;
     generate_content := fun _ _ _ => Raise GenerationError |}.

(** ** The resolver over the interpreter's own string methods

    [lower] and [strip] above are the ASCII part of Python's [str.lower]
    and [str.strip]: on a query with other characters (a no-break space
    at the end, a letter outside A-Z) the two methods of the interpreter
    do more. For a statement about every query the two methods are taken
    as the interpreter provides them. A str is its UTF-8 text, on which
    Python's [==] and [in] are [String.eqb] and [contains]. *)
Record StrOps : Type := {
  str_lower : string -> string;
  str_strip : string -> string
}.

(** The two methods on ASCII text. *)
Definition ascii_str_ops : StrOps :=
  {| str_lower := lower; str_strip := strip |}.

(** [find_symbol] ([app.py], lines 174-201), its line 176
    [query = query.lower().strip()] done by the methods of [P]; the rest
    is as in [find_symbol] above, which is this function at
    [ascii_str_ops]. *)
Definition find_symbol_with (P : StrOps) (E : Env) (query : string)
  : M pyval :=
  let query := str_strip P (str_lower P query) in
  match dict_get query all_symbols with
  | Some symbol => ret (PStr symbol)
  | None =>
      match partial_match query all_symbols with
      | Some symbol => ret (PStr symbol)
      | None =>
          try_except
            (data <- http_get_json E (SymbolSearch query) ;;
             matches <- lift (py_get data "bestMatches" (PList [])) ;;
             if truthy matches then
               first <- lift (py_item0 matches) ;;
               lift (py_get first "1. symbol" PNone)
             else ret PNone)
            (fun _ => ret PNone)
      end
  end.

(** The resolver in the words of the specification, as [ResolveSpec],
    with "lowercase, strip leading/trailing whitespace" done by the
    methods of [P]. *)
Module ResolveSpecWith.

Definition normalize (P : StrOps) (query : string) : string :=
  str_strip P (str_lower P query).

Definition resolve (P : StrOps) (E : Env) (t : Z) (query : string) : pyval :=
  let q := normalize P query in
  match ResolveSpec.local_hit q with
  | Some symbol => PStr symbol
  | None =>
      match ResolveSpec.first_remote_match (net E t (SymbolSearch q)) with
      | Some symbol => symbol
      | None => PNone
      end
  end.

Definition resolve_requests (P : StrOps) (query : string) : list request :=
  match ResolveSpec.local_hit (normalize P query) with
  | Some _ => []
  | None => [SymbolSearch (normalize P query)]
  end.

End ResolveSpecWith.

(** The no-break space U+00A0, as UTF-8 text. *)
Definition nbsp : string :=
  String (ascii_of_nat 194) (String (ascii_of_nat 160) EmptyString).

(** An amount the REAL column of SQLite gives back as it was stored:
    every float but the NaN, which is read back as NULL, and the negative
    zero, which is read back as the positive one. *)
Definition kept_by_real (amount : float) : bool :=
  match PrimFloat.classify amount with
  | NaN | NZero => false
  | _ => true
  end.

(** * Properties *)

(** ** Strings *)

Lemma prefix_app (a s : string) :
  prefix a s = true <-> exists post, s = a ++ post.
Proof.
  revert s; induction a as [|c a IH]; intros s.
  - destruct s; simpl; split; eauto.
  - destruct s as [|d s]; simpl.
    + split; [discriminate | intros [post H]; discriminate].
    + destruct (Ascii.ascii_dec c d) as [->|Hne].
      * rewrite IH. split; intros [post H]; exists post; congruence.
      * split; [discriminate | intros [post H]; congruence].
Qed.

(** [contains] is Python's [in] on strings: an occurrence somewhere. *)
Lemma contains_occurrence (sub s : string) :
  contains sub s = true <-> exists pre post, s = pre ++ sub ++ post.
Proof.
  induction s as [|c s IH]; cbn [contains].
  - rewrite orb_false_r, prefix_app. split.
    + intros [post H]. exists "", post. exact H.
    + intros [pre [post H]]. destruct pre; [eauto | discriminate].
  - rewrite orb_true_iff, prefix_app, IH. split.
    + intros [[post H] | [pre [post H]]].
      * exists "", post. exact H.
      * exists (String c pre), post. simpl. now rewrite H.
    + intros [pre [post H]]. destruct pre as [|d pre]; simpl in H.
      * left. eauto.
      * right. exists pre, post. congruence.
Qed.

Lemma is_space_lower (c : ascii) : is_space c = true -> lower_char c = c.
Proof.
  destruct c as [[] [] [] [] [] [] [] []]; vm_compute; congruence.
Qed.

Lemma all_space_normalize (s : string) :
  all_space s = true -> strip (lower s) = "".
Proof.
  unfold strip. induction s as [|c s IH]; simpl; [reflexivity|].
  intros H. apply andb_true_iff in H as [Hc Hs].
  rewrite (is_space_lower c Hc), Hc. auto.
Qed.

(** ** The resolver *)

Lemma all_symbols_items : all_symbols = catalog.
Proof. reflexivity. Qed.

Lemma dict_get_is_find {V} (key : string) (d : dict V) :
  dict_get key d
  = option_map snd (find (fun entry => String.eqb key (fst entry)) d).
Proof.
  induction d as [|[k v] d IH]; simpl; [reflexivity|].
  destruct (String.eqb key k); auto.
Qed.

Lemma partial_match_is_find (query : string) (d : dict string) :
  partial_match query d
  = option_map snd
      (find (fun entry => contains query (fst entry)
                          || contains (fst entry) query) d).
Proof.
  induction d as [|[k v] d IH]; simpl; [reflexivity|].
  destruct (contains query k || contains k query); auto.
Qed.

(** The remote step of [find_symbol], for each answer of the endpoint. *)
Lemma remote_step (E : Env) (q : string) (w : world) :
  try_except
    (data <- http_get_json E (SymbolSearch q) ;;
     matches <- lift (py_get data "bestMatches" (PList [])) ;;
     if truthy matches then
       first <- lift (py_item0 matches) ;;
       lift (py_get first "1. symbol" PNone)
     else ret PNone)
    (fun _ => ret PNone) w
  = (Ok match ResolveSpec.first_remote_match (net E (clock w) (SymbolSearch q)) with
        | Some symbol => symbol
        | None => PNone
        end,
     log_request (SymbolSearch q) w).
Proof.
  unfold try_except, bind, http_get_json, lift, ret.
  destruct (net E (clock w) (SymbolSearch q)) as [e|data]; [reflexivity|].
  destruct data as [| | | | |items|fields]; try reflexivity.
  simpl. destruct (dict_get "bestMatches" fields) as [m|]; [|reflexivity].
  destruct m as [|b|z|f|s|items|items]; simpl; try reflexivity.
  - destruct b; reflexivity.
  - destruct (Z.eqb z 0); reflexivity.
  - destruct (PrimFloat.eqb f 0); reflexivity.
  - destruct s; reflexivity.
  - destruct items as [|first rest]; [reflexivity|].
    destruct first; simpl; try reflexivity.
    destruct (dict_get "1. symbol" items); reflexivity.
  - destruct items; reflexivity.
Qed.

(** C3. [find_symbol] is the resolver of the specification, for every
    query and whatever Python's [str.lower] and [str.strip] do on it: the
    query is lowercased and stripped by the two methods, then comes the
    exact key, then the first alias in table order that contains the
    query or is contained in it, then the first match of the remote
    search, then NotFound ([PNone]); a failure of the remote step is
    swallowed; the search request is sent only when no local step
    answers. *)
Theorem find_symbol_refines_resolve (P : StrOps) (E : Env) (query : string)
    (w : world) :
  find_symbol_with P E query w
  = (Ok (ResolveSpecWith.resolve P E (clock w) query),
     fold_right log_request w (ResolveSpecWith.resolve_requests P query)).
Proof.
  unfold find_symbol_with, ResolveSpecWith.resolve,
    ResolveSpecWith.resolve_requests, ResolveSpecWith.normalize,
    ResolveSpec.local_hit, ResolveSpec.exact_hit, ResolveSpec.substring_hit.
  rewrite all_symbols_items, dict_get_is_find, partial_match_is_find.
  change ResolveSpec.merged_alias_table with catalog.
  set (q := str_strip P (str_lower P query)).
  destruct (find (fun entry => String.eqb q (fst entry)) catalog)
    as [[k v]|]; [reflexivity|].
  destruct (find (fun entry => contains q (fst entry) || contains (fst entry) q)
                 catalog) as [[k v]|]; [reflexivity|].
  cbn [option_map]. apply remote_step.
Qed.

(** [find_symbol] is [find_symbol_with] at the ASCII tables. *)
Lemma find_symbol_at_ascii_tables (E : Env) (query : string) (w : world) :
  find_symbol E query w = find_symbol_with ascii_str_ops E query w.
Proof. reflexivity. Qed.

(** And so is the resolver of [ResolveSpec]. *)
Lemma resolve_at_ascii_tables (E : Env) (t : Z) (query : string) :
  ResolveSpec.resolve E t query
  = ResolveSpecWith.resolve ascii_str_ops E t query
  /\ ResolveSpec.resolve_requests query
     = ResolveSpecWith.resolve_requests ascii_str_ops query.
Proof. split; reflexivity. Qed.

(** With methods that strip a no-break space, as Python's do, the query
    "bank nifty" followed by one is the exact key "bank nifty". *)
Lemma find_symbol_with_no_break_space (P : StrOps) (E : Env) (w : world) :
  str_strip P (str_lower P ("bank nifty" ++ nbsp)) = "bank nifty" ->
  find_symbol_with P E ("bank nifty" ++ nbsp) w = (Ok (PStr "^NSEBANK"), w).
Proof. intros H. unfold find_symbol_with. rewrite H. reflexivity. Qed.

Lemma catalog_entries_resolve_locally :
  forallb (fun entry =>
             String.eqb (strip (lower (fst entry))) (fst entry)
             && match dict_get (fst entry) all_symbols with
                | Some symbol => String.eqb symbol (snd entry)
                | None => false
                end) catalog = true.
Proof. vm_compute. reflexivity. Qed.

(** C6. An alias registered in one of the five catalog tables resolves to
    the symbol registered for it, without any request. *)
Theorem registered_alias_resolves (E : Env) (w : world)
    (alias symbol : string) :
  In (alias, symbol) INDIAN_STOCKS \/ In (alias, symbol) US_STOCKS
  \/ In (alias, symbol) COMMODITIES \/ In (alias, symbol) FOREX_PAIRS
  \/ In (alias, symbol) CRYPTO_PAIRS ->
  find_symbol E alias w = (Ok (PStr symbol), w).
Proof.
  intros H.
  assert (Hin : In (alias, symbol) catalog).
  { unfold catalog. rewrite !in_app_iff. tauto. }
  pose proof catalog_entries_resolve_locally as Hall.
  rewrite forallb_forall in Hall. specialize (Hall _ Hin). cbn [fst snd] in Hall.
  apply andb_true_iff in Hall as [Hnorm Hget].
  apply String.eqb_eq in Hnorm.
  unfold find_symbol. rewrite Hnorm.
  destruct (dict_get alias all_symbols) as [s|]; [|discriminate].
  apply String.eqb_eq in Hget. now subst.
Qed.

Lemma registered_alias_resolves_gold :
  (In ("gold", "GC=F") INDIAN_STOCKS \/ In ("gold", "GC=F") US_STOCKS
   \/ In ("gold", "GC=F") COMMODITIES \/ In ("gold", "GC=F") FOREX_PAIRS
   \/ In ("gold", "GC=F") CRYPTO_PAIRS)
  /\ find_symbol offline "gold" initial_world
     = (Ok (PStr "GC=F"), initial_world).
Proof.
  assert (H : In ("gold", "GC=F") INDIAN_STOCKS \/ In ("gold", "GC=F") US_STOCKS
              \/ In ("gold", "GC=F") COMMODITIES \/ In ("gold", "GC=F") FOREX_PAIRS
              \/ In ("gold", "GC=F") CRYPTO_PAIRS).
  { right; right; left. simpl. left. reflexivity. }
  split; [exact H | exact (registered_alias_resolves offline initial_world "gold" "GC=F" H)].
Defined.

(** C9. The empty query, or one of whitespace only, is not NotFound: the
    normalized query is empty, the empty string occurs in every alias, and
    the substring step returns the symbol of the first item of the merged
    table, which is the one registered for "reliance". *)
Theorem blank_query_resolves_to_first_entry (E : Env) (w : world)
    (query : string) :
  all_space query = true ->
  hd_error all_symbols = Some ("reliance", "RELIANCE.NS")
  /\ dict_get (strip (lower query)) all_symbols = None
  /\ find_symbol E query w = (Ok (PStr "RELIANCE.NS"), w).
Proof.
  intros H. unfold find_symbol.
  rewrite (all_space_normalize query H). repeat split; reflexivity.
Qed.

Lemma blank_query_resolves_to_first_entry_tab_space :
  all_space (String (ascii_of_nat 9) " ") = true
  /\ find_symbol offline (String (ascii_of_nat 9) " ") initial_world
     = (Ok (PStr "RELIANCE.NS"), initial_world).
Proof.
  split; [reflexivity|].
  exact (proj2 (proj2 (blank_query_resolves_to_first_entry
                         offline initial_world
                         (String (ascii_of_nat 9) " ") eq_refl))).
Defined.

(** ** The memo decorator and the quote gateway *)

Lemma float_same_refl (f : float) : float_same f f = true.
Proof.
  unfold float_same. destruct (Prim2SF f); simpl;
    rewrite ?Bool.eqb_reflx, ?Pos.eqb_refl, ?Z.eqb_refl; reflexivity.
Qed.

Lemma pyval_eqb_refl : forall v : pyval, pyval_eqb v v = true.
Proof.
  fix IH 1. intros [| b | z | f | s | items | items]; simpl.
  - reflexivity.
  - apply Bool.eqb_reflx.
  - apply Z.eqb_refl.
  - apply float_same_refl.
  - apply String.eqb_refl.
  - induction items as [|x items IHitems]; [reflexivity|].
    rewrite (IH x). exact IHitems.
  - induction items as [|[k x] items IHitems]; [reflexivity|].
    rewrite String.eqb_refl, (IH x). exact IHitems.
Qed.

(** Running the body of [get_yahoo_finance_data] sends one request and
    returns; it raises nothing and leaves clock and memo tables alone. *)
Lemma quote_body_returns (E : Env) (symbol : pyval) (w : world) :
  exists v, get_yahoo_finance_data_body E symbol w
            = (Ok v, log_request (GlobalQuote (py_str E symbol)) w).
Proof.
  unfold get_yahoo_finance_data_body, try_except, bind, http_get_json,
    lift, ret, now.
  destruct (net E (clock w) (GlobalQuote (py_str E symbol))); [eauto|].
  destruct (py_get data "Global Quote" (PDict [])) as [q|]; [|eauto].
  destruct (truthy q); [|eauto].
  destruct (py_get q "01. symbol" symbol); [|eauto].
  destruct (py_get q "05. price" (PInt 0)) as [p|]; [|eauto].
  destruct (py_float E p); [|eauto].
  destruct (py_get q "09. change" (PInt 0)) as [c|]; [|eauto].
  destruct (py_float E c); [|eauto].
  destruct (py_get q "10. change percent" (PStr "0%")) as [cp|]; [|eauto].
  destruct (py_replace cp "%" ""); [|eauto].
  destruct (py_get q "06. volume" (PStr "N/A")); eauto.
Qed.

(** A call that finds no entry, or only an expired one, runs the body
    and stores what it returns. *)
Lemma quote_miss (E : Env) (symbol : pyval) (w : world) :
  match memo_find pyval_eqb symbol (quote_memo w) with
  | Some (t, _) => (t + 300 <= clock w)%Z
  | None => True
  end ->
  exists v,
    get_yahoo_finance_data_body E symbol w
    = (Ok v, log_request (GlobalQuote (py_str E symbol)) w)
    /\ get_yahoo_finance_data E symbol w
       = (Ok v,
          set_quote_memo ((symbol, (clock w, v)) :: quote_memo w)
            (log_request (GlobalQuote (py_str E symbol)) w)).
Proof.
  intros Hmiss. destruct (quote_body_returns E symbol w) as [v Hv].
  exists v. split; [exact Hv|].
  unfold get_yahoo_finance_data, cache_data. rewrite Hv.
  destruct (memo_find pyval_eqb symbol (quote_memo w)) as [[t v0]|];
    [|reflexivity].
  destruct (Z.ltb_spec (clock w) (t + 300)); [lia | reflexivity].
Qed.

(** A call that finds an entry younger than 300 seconds returns it and
    touches nothing. *)
Lemma quote_hit (E : Env) (symbol : pyval) (w : world) (t : Z)
    (v : option quote) :
  memo_find pyval_eqb symbol (quote_memo w) = Some (t, v) ->
  (clock w < t + 300)%Z ->
  get_yahoo_finance_data E symbol w = (Ok v, w).
Proof.
  intros Hfind Hfresh. unfold get_yahoo_finance_data, cache_data.
  rewrite Hfind. destruct (Z.ltb_spec (clock w) (t + 300)); [reflexivity | lia].
Qed.

(** C4, as the code has it. A failed fetch is stored like any other
    result: after a call that sent a request and returned [None], a call
    for the same symbol less than 300 seconds later returns [None] from
    the memo table and sends nothing; a call 300 seconds later or more
    sends a new request. *)
Theorem failed_quote_is_cached (E : Env) (symbol : pyval) (w w1 : world) :
  get_yahoo_finance_data E symbol w = (Ok None, w1) ->
  requests w1 <> requests w ->
  (forall dt, (0 <= dt < 300)%Z ->
     get_yahoo_finance_data E symbol (advance dt w1)
     = (Ok None, advance dt w1))
  /\ (forall dt, (300 <= dt)%Z ->
        requests (snd (get_yahoo_finance_data E symbol (advance dt w1)))
        = GlobalQuote (py_str E symbol) :: requests w1).
Proof.
  intros Hcall Hsent.
  assert (Hw1 : w1 = set_quote_memo ((symbol, (clock w, None)) :: quote_memo w)
                       (log_request (GlobalQuote (py_str E symbol)) w)).
  { destruct (quote_body_returns E symbol w) as [v Hv].
    unfold get_yahoo_finance_data, cache_data in Hcall. rewrite Hv in Hcall.
    destruct (memo_find pyval_eqb symbol (quote_memo w)) as [[t v0]|].
    - destruct (clock w <? t + 300)%Z.
      + inversion Hcall; subst. contradiction.
      + inversion Hcall; subst. reflexivity.
    - inversion Hcall; subst. reflexivity. }
  assert (Hfind : forall dt,
             memo_find pyval_eqb symbol (quote_memo (advance dt w1))
             = Some (clock w, None)).
  { intros dt. rewrite Hw1. simpl. now rewrite pyval_eqb_refl. }
  assert (Hclock : forall dt, clock (advance dt w1) = (clock w + dt)%Z).
  { intros dt. rewrite Hw1. reflexivity. }
  split; intros dt Hdt.
  - apply quote_hit with (t := clock w); [apply Hfind | rewrite Hclock; lia].
  - destruct (quote_miss E symbol (advance dt w1)) as [v [_ Hv]].
    { rewrite Hfind, Hclock. lia. }
    rewrite Hv. reflexivity.
Qed.

Lemma failed_quote_is_cached_offline :
  (get_yahoo_finance_data offline (PStr "AAPL") initial_world
   = (Ok None,
      set_quote_memo [(PStr "AAPL", (0%Z, None))]
        (log_request (GlobalQuote "AAPL") initial_world)))
  /\ get_yahoo_finance_data offline (PStr "AAPL")
       (advance 299
          (set_quote_memo [(PStr "AAPL", (0%Z, None))]
             (log_request (GlobalQuote "AAPL") initial_world)))
     = (Ok None,
        advance 299
          (set_quote_memo [(PStr "AAPL", (0%Z, None))]
             (log_request (GlobalQuote "AAPL") initial_world))).
Proof.
  split; [reflexivity|].
  refine (proj1 (failed_quote_is_cached offline (PStr "AAPL")
                   initial_world _ eq_refl _) 299%Z _).
  - simpl. discriminate.
  - lia.
Defined.

(** C4, as the specification has it, fails. The network is down at time
    0 and up from time 1 on: the call at time 0 sends a request and
    returns [None]; the call one second later returns [None] again and the
    log still holds the one request, although a fetch at that time would
    have returned a quote. *)
Lemma failed_quote_not_refetched :
  let (r1, w1) := get_yahoo_finance_data recovering (PStr "AAPL") initial_world in
  let (r2, w2) := get_yahoo_finance_data recovering (PStr "AAPL") (advance 1 w1) in
  r1 = Ok None
  /\ requests w1 = [GlobalQuote "AAPL"]
  /\ r2 = Ok None
  /\ requests w2 = [GlobalQuote "AAPL"]
  /\ fst (get_yahoo_finance_data_body recovering (PStr "AAPL") (advance 1 w1))
     = Ok (Some {| quote_symbol := PStr "AAPL"; quote_price := 0;
                   quote_change := 0; quote_change_percent := "0";
                   quote_volume := PStr "N/A"; quote_timestamp := 1 |}).
Proof. vm_compute. repeat split. Qed.

Lemma py_get_dict (items : list (string * pyval)) (key : string)
    (default : pyval) :
  py_get (PDict items) key default
  = Ok match dict_get key items with
       | Some x => x
       | None => default
       end.
Proof. unfold py_get. destruct (dict_get key items); reflexivity. Qed.

(** C10. A non-empty "Global Quote" object that lacks fields is not
    Unavailable: each missing field takes its default (price 0.0, change
    0.0, change percent "0", volume "N/A", and for the symbol the one
    asked for), each field that is there is converted as usual, and the
    call returns the quote. *)
Theorem missing_quote_fields_take_defaults (E : Env) (symbol : pyval)
    (w : world) (fields items : list (string * pyval))
    (price change : float) (change_percent : string) :
  memo_find pyval_eqb symbol (quote_memo w) = None ->
  net E (clock w) (GlobalQuote (py_str E symbol)) = Body (PDict fields) ->
  dict_get "Global Quote" fields = Some (PDict items) ->
  items <> [] ->
  match dict_get "05. price" items with
  | Some v => py_float E v = Ok price
  | None => price = 0%float
  end ->
  match dict_get "09. change" items with
  | Some v => py_float E v = Ok change
  | None => change = 0%float
  end ->
  match dict_get "10. change percent" items with
  | Some v => py_replace v "%" "" = Ok change_percent
  | None => change_percent = "0"
  end ->
  fst (get_yahoo_finance_data E symbol w)
  = Ok (Some {| quote_symbol := match dict_get "01. symbol" items with
                                | Some s => s
                                | None => symbol
                                end;
                quote_price := price;
                quote_change := change;
                quote_change_percent := change_percent;
                quote_volume := match dict_get "06. volume" items with
                                | Some v => v
                                | None => PStr "N/A"
                                end;
                quote_timestamp := clock w |}).
Proof.
  intros Hmemo Hnet Hquote Hne Hprice Hchange Hpct.
  destruct (quote_miss E symbol w) as [v [Hbody Hcall]].
  { now rewrite Hmemo. }
  rewrite Hcall. cbn [fst]. f_equal.
  assert (Hp : py_float E match dict_get "05. price" items with
                          | Some x => x
                          | None => PInt 0
                          end = Ok price).
  { destruct (dict_get "05. price" items); [exact Hprice | now subst]. }
  assert (Hc : py_float E match dict_get "09. change" items with
                          | Some x => x
                          | None => PInt 0
                          end = Ok change).
  { destruct (dict_get "09. change" items); [exact Hchange | now subst]. }
  assert (Hr : py_replace match dict_get "10. change percent" items with
                          | Some x => x
                          | None => PStr "0%"
                          end "%" "" = Ok change_percent).
  { destruct (dict_get "10. change percent" items); [exact Hpct | now subst]. }
  unfold get_yahoo_finance_data_body, try_except, bind, http_get_json,
    lift, ret, now in Hbody.
  rewrite Hnet, py_get_dict, Hquote in Hbody.
  destruct items as [|item items']; [congruence|].
  cbn [truthy] in Hbody.
  rewrite !py_get_dict, Hp, Hc, Hr in Hbody.
  inversion Hbody. reflexivity.
Qed.

Lemma missing_quote_fields_take_defaults_symbol_only :
  fst (get_yahoo_finance_data recovering (PStr "AAPL")
         (advance 1 initial_world))
  = Ok (Some {| quote_symbol := PStr "AAPL"; quote_price := 0;
                quote_change := 0; quote_change_percent := "0";
                quote_volume := PStr "N/A"; quote_timestamp := 1 |}).
Proof.
  refine (missing_quote_fields_take_defaults recovering (PStr "AAPL")
            (advance 1 initial_world)
            [("Global Quote", PDict [("01. symbol", PStr "AAPL")])]
            [("01. symbol", PStr "AAPL")] 0%float 0%float "0"
            eq_refl eq_refl eq_refl _ eq_refl eq_refl eq_refl).
  discriminate.
Defined.

(** A field that is there and cannot be converted still makes the quote
    Unavailable: here the change is missing and the price is not a
    number. *)
Lemma unparsable_price_is_unavailable :
  fst (get_yahoo_finance_data
         {| net := fun _ _ =>
              Body (PDict [("Global Quote",
                            PDict [("05. price", PStr "n/a")])]);
            float_of_str := fun _ => None;
            float_of_big_int := fun _ => None;
            str_of := fun _ => "";
            format_2f := fun _ => "";
            format_signed_2f := fun _ => "";
            strftime := fun _ => "";
            GenerativeModel := fun _ => false;
            generate_content := fun _ _ _ => Raise GenerationError |}
         (PStr "AAPL") initial_world)
  = Ok None.
Proof. reflexivity. Qed.

(** The forex gateway stores a failed answer in the same way. *)
Lemma failed_forex_not_refetched :
  let (r1, w1) := get_forex_data recovering "USDINR" initial_world in
  let (r2, w2) := get_forex_data recovering "USDINR" (advance 1 w1) in
  r1 = Ok None
  /\ requests w1 = [CurrencyExchangeRate "USD" "INR"]
  /\ r2 = Ok None
  /\ requests w2 = [CurrencyExchangeRate "USD" "INR"].
Proof. vm_compute. repeat split. Qed.

(** ** The forex gateway *)

Lemma forex_body_label (E : Env) (pair : string) (w : world) :
  exists v,
    get_forex_data_body E pair w
    = (Ok v, log_request (CurrencyExchangeRate (from_curr pair) (to_curr pair)) w)
    /\ forex_entry_ok (pair, (clock w, v)) = true.
Proof.
  unfold get_forex_data_body, try_except, bind, http_get_json, lift, ret.
  destruct (net E (clock w) _); [exists None; auto|].
  destruct (py_get data _ _) as [rd|]; [|exists None; auto].
  destruct (truthy rd); [|exists None; auto].
  destruct (py_get rd "5. Exchange Rate" _) as [r|]; [|exists None; auto].
  destruct (py_float E r); [|exists None; auto].
  destruct (py_get rd "6. Last Refreshed" _); [|exists None; auto].
  eexists. split; [reflexivity|]. apply String.eqb_refl.
Qed.

Lemma forex_memo_find_ok (k : string) (m : memo string (option forex))
    (t : Z) (v : option forex) :
  forallb forex_entry_ok m = true ->
  memo_find String.eqb k m = Some (t, v) ->
  forex_entry_ok (k, (t, v)) = true.
Proof.
  induction m as [|[k' e] m IH]; simpl; [discriminate|].
  intros Hall Hfind. apply andb_true_iff in Hall as [Hhead Htail].
  destruct (String.eqb_spec k k') as [->|_].
  - inversion Hfind; subst. exact Hhead.
  - auto.
Qed.

(** C5, as the code has it. The base is the first three characters of
    the pair; the quote is the (at most three) characters that follow,
    which is all the rest only for a pair of at most six characters; the
    label of a returned rate is base, a slash, quote. The invariant of the
    memo table is kept. *)
Theorem forex_split (E : Env) (pair : string) (w : world) :
  forex_memo_ok w = true ->
  (from_curr pair ++ drop 3 pair = pair
   /\ String.length (from_curr pair) = Nat.min 3 (String.length pair))
  /\ (prefix (to_curr pair) (drop 3 pair) = true
      /\ String.length (to_curr pair) = Nat.min 3 (String.length pair - 3))
  /\ (String.length pair <= 6 -> to_curr pair = drop 3 pair)
  /\ (forall r, fst (get_forex_data E pair w) = Ok (Some r) ->
                forex_pair r = from_curr pair ++ "/" ++ to_curr pair)
  /\ forex_memo_ok (snd (get_forex_data E pair w)) = true.
Proof.
  intros Hok. split; [|split; [|split; [|split]]].
  - destruct pair as [|a [|b [|c [|d rest]]]]; split; reflexivity.
  - destruct pair as [|a [|b [|c [|d [|e [|f rest]]]]]]; simpl;
      rewrite ?prefix_app; repeat split; eauto;
      repeat (destruct (Ascii.ascii_dec _ _); [|congruence]);
      try reflexivity; destruct rest; reflexivity.
  - destruct pair as [|a [|b [|c [|d [|e [|f [|g rest]]]]]]]; simpl;
      intros; try reflexivity; lia.
  - intros r Hr. unfold get_forex_data, cache_data in Hr.
    destruct (forex_body_label E pair w) as [v [Hbody Hentry]].
    rewrite Hbody in Hr.
    assert (Hv : forex_entry_ok (pair, (clock w, Some r)) = true
                 -> forex_pair r = from_curr pair ++ "/" ++ to_curr pair).
    { simpl. apply String.eqb_eq. }
    destruct (memo_find String.eqb pair (forex_memo w)) as [[t v0]|] eqn:Hfind.
    + destruct (clock w <? t + 300)%Z; cbn [fst] in Hr; inversion Hr; subst.
      * pose proof (forex_memo_find_ok pair (forex_memo w) t (Some r)
                      Hok Hfind) as H0.
        simpl in H0. now apply String.eqb_eq.
      * auto.
    + cbn [fst] in Hr. inversion Hr; subst. auto.
  - unfold get_forex_data, cache_data.
    destruct (forex_body_label E pair w) as [v [Hbody Hentry]].
    rewrite Hbody.
    assert (Hstore : forex_memo_ok
                       (set_forex_memo
                          ((pair, (clock (log_request
                                     (CurrencyExchangeRate (from_curr pair)
                                        (to_curr pair)) w), v))
                           :: forex_memo (log_request
                                     (CurrencyExchangeRate (from_curr pair)
                                        (to_curr pair)) w))
                          (log_request (CurrencyExchangeRate (from_curr pair)
                                          (to_curr pair)) w)) = true).
    { unfold forex_memo_ok. cbn [forex_memo set_forex_memo log_request clock forallb].
      unfold forex_memo_ok in Hok. rewrite Hok, andb_true_r. exact Hentry. }
    destruct (memo_find String.eqb pair (forex_memo w)) as [[t v0]|].
    + destruct (clock w <? t + 300)%Z; cbn [snd]; auto.
    + cbn [snd]. exact Hstore.
Qed.

Lemma forex_split_usdinr :
  forex_memo_ok (advance 1 initial_world) = true
  /\ fst (get_forex_data recovering "USDINR" (advance 1 initial_world))
     = Ok (Some {| forex_pair := "USD/INR"; forex_rate := 1.25;
                   forex_timestamp := PStr "2024-01-02 03:04:05" |})
  /\ forex_pair {| forex_pair := "USD/INR"; forex_rate := 1.25;
                   forex_timestamp := PStr "2024-01-02 03:04:05" |}
     = from_curr "USDINR" ++ "/" ++ to_curr "USDINR".
Proof.
  split; [reflexivity|]. split; [reflexivity|].
  exact (proj1 (proj2 (proj2 (proj2
           (forex_split recovering "USDINR" (advance 1 initial_world) eq_refl))))
           _ eq_refl).
Defined.

(** C5, as the specification has it, fails on a pair of more than six
    characters: for the catalog's own "EURUSD=X" the quote is "USD", not
    the rest "USD=X", and the label is "EUR/USD". *)
Lemma forex_split_drops_the_tail :
  to_curr "EURUSD=X" = "USD"
  /\ drop 3 "EURUSD=X" = "USD=X"
  /\ fst (get_forex_data recovering "EURUSD=X" (advance 1 initial_world))
     = Ok (Some {| forex_pair := "EUR/USD"; forex_rate := 1.25;
                   forex_timestamp := PStr "2024-01-02 03:04:05" |}).
Proof. vm_compute. repeat split. Qed.

(** ** The response composer *)

Lemma find_symbol_returns (E : Env) (query : string) (w : world) :
  exists v w', find_symbol E query w = (Ok v, w').
Proof.
  unfold find_symbol.
  destruct (dict_get _ all_symbols); [unfold ret; eauto|].
  destruct (partial_match _ all_symbols); [unfold ret; eauto|].
  rewrite remote_step. eauto.
Qed.

Lemma quote_call_returns (E : Env) (symbol : pyval) (w : world) :
  exists v w', get_yahoo_finance_data E symbol w = (Ok v, w').
Proof.
  unfold get_yahoo_finance_data, cache_data.
  destruct (quote_body_returns E symbol w) as [v Hv]. rewrite Hv.
  destruct (memo_find pyval_eqb symbol (quote_memo w)) as [[t v0]|]; eauto.
  destruct (clock w <? t + 300)%Z; eauto.
Qed.

(** The fallback composer raises nothing. *)
Lemma generate_fallback_response_returns (E : Env)
    (user_query context_data : string) (w : world) :
  exists v w', generate_fallback_response E user_query context_data w
               = (Ok v, w').
Proof.
  unfold generate_fallback_response.
  destruct (any_in _ _).
  - unfold bind.
    destruct (find_symbol_returns E user_query w) as [s [w1 Hs]]. rewrite Hs.
    destruct (truthy s); [|unfold ret; eauto].
    destruct (quote_call_returns E s w1) as [d [w2 Hd]]. rewrite Hd.
    destruct d; unfold ret; eauto.
  - repeat (destruct (any_in _ _); [unfold ret; eauto|]). unfold ret; eauto.
Qed.

(** The composer raises nothing, whatever fails in the generative path. *)
Lemma generate_ai_response_never_raises (E : Env)
    (user_query context_data : string) (w : world) :
  exists v w', generate_ai_response E user_query context_data w = (Ok v, w').
Proof.
  unfold generate_ai_response, try_except.
  destruct (first_model E (model_names)) as [model|].
  - unfold bind, now, lift, ret.
    destruct (generate_content E (clock w) model _); [eauto|].
    apply generate_fallback_response_returns.
  - destruct (generate_fallback_response_returns E user_query context_data w)
      as [v [w' H]].
    rewrite H. eauto.
Qed.

(** C1, where the code departs from it. With the network down and the
    model call failing, the composer given "stock price" returns [None],
    not a str: the price branch of the fallback ends without a [return]
    when no symbol is resolved. *)
Theorem generate_ai_response_returns_none :
  generate_ai_response offline "stock price" "" initial_world
  = (Ok None, log_request (SymbolSearch "stock price") initial_world).
Proof. vm_compute. reflexivity. Qed.

(** C7. With the results of the gateways held fixed, two calls of the
    fallback composer on the same query and context return the same
    value, whatever else differs between the two worlds (clock, memo
    tables, log). *)
Theorem fallback_deterministic (E : Env) (user_query context_data : string)
    (w1 w2 : world) :
  gateway_results E user_query w1 = gateway_results E user_query w2 ->
  fst (generate_fallback_response E user_query context_data w1)
  = fst (generate_fallback_response E user_query context_data w2).
Proof.
  intros H. unfold generate_fallback_response.
  destruct (any_in _ _).
  - unfold gateway_results in H. unfold bind.
    destruct (find_symbol E user_query w1) as [r1 u1].
    destruct (find_symbol E user_query w2) as [r2 u2].
    injection H as Hr Hq. subst r2.
    destruct r1 as [s|e]; [|reflexivity].
    destruct (truthy s); [|reflexivity].
    destruct (get_yahoo_finance_data E s u1) as [d1 v1].
    destruct (get_yahoo_finance_data E s u2) as [d2 v2].
    cbn [fst] in Hq. subst d2.
    destruct d1 as [[d|]|e]; reflexivity.
  - repeat (destruct (any_in _ _); [reflexivity|]). reflexivity.
Qed.

Lemma fallback_deterministic_gold_price_twice :
  gateway_results recovering "gold price today" (advance 5 initial_world)
  = gateway_results recovering "gold price today"
      (advance 100
         (snd (generate_fallback_response recovering "gold price today" ""
                 (advance 5 initial_world))))
  /\ fst (generate_fallback_response recovering "gold price today" ""
            (advance 5 initial_world))
     = fst (generate_fallback_response recovering "gold price today" ""
              (advance 100
                 (snd (generate_fallback_response recovering
                         "gold price today" "" (advance 5 initial_world))))).
Proof.
  split; [reflexivity|].
  exact (fallback_deterministic recovering "gold price today" ""
           (advance 5 initial_world)
           (advance 100
              (snd (generate_fallback_response recovering "gold price today" ""
                      (advance 5 initial_world))))
           eq_refl).
Defined.

Lemma price_template_is_not_commodity (E : Env) (d : quote) (c : string) :
  price_template E d c <> commodity_template.
Proof.
  unfold price_template, commodity_template. cbn [unlines].
  intros H. vm_compute in H. discriminate H.
Qed.

(** C2, as the code has it. "gold price today" contains "price": it
    falls in the first bucket, and whatever the gateways answer the
    fallback composer does not return the commodity template for it. A
    query with a commodity keyword and no keyword of the three buckets
    checked before gets the commodity template, without any request. *)
Theorem commodity_template_needs_no_earlier_keyword (E : Env)
    (context_data : string) (w : world) :
  any_in price_words (lower "gold price today") = true
  /\ fst (generate_fallback_response E "gold price today" context_data w)
     <> Ok (Some commodity_template)
  /\ (forall user_query,
        any_in price_words (lower user_query) = false ->
        any_in market_words (lower user_query) = false ->
        any_in forex_words (lower user_query) = false ->
        any_in commodity_words (lower user_query) = true ->
        generate_fallback_response E user_query context_data w
        = (Ok (Some commodity_template), w)).
Proof.
  split; [reflexivity|]. split.
  - unfold generate_fallback_response.
    change (any_in ["price"; "stock"; "share"] (lower "gold price today"))
      with true.
    cbv iota. unfold bind.
    change (find_symbol E "gold price today" w) with (Ok (PStr "GC=F"), w).
    cbv iota beta. change (truthy (PStr "GC=F")) with true. cbv iota beta.
    destruct (get_yahoo_finance_data E (PStr "GC=F") w) as [[[d|]|e] w'];
      cbn [fst ret]; [|discriminate|discriminate].
    intros H. apply (price_template_is_not_commodity E d context_data).
    exact (f_equal (fun r => match r with
                             | Ok (Some s) => s
                             | _ => commodity_template
                             end) H).
  - intros q H1 H2 H3 H4. unfold generate_fallback_response.
    fold price_words market_words forex_words commodity_words.
    rewrite H1, H2, H3, H4. reflexivity.
Qed.

Lemma commodity_template_for_gold_today :
  generate_fallback_response offline "gold today" "" initial_world
  = (Ok (Some commodity_template), initial_world).
Proof.
  exact (proj2 (proj2 (commodity_template_needs_no_earlier_keyword
                         offline "" initial_world))
           "gold today" eq_refl eq_refl eq_refl eq_refl).
Defined.

(** C2, as the specification has it, fails: with every request failing,
    the fallback composer given "gold price today" resolves "GC=F" from
    the catalog, gets no quote, and returns [None]. *)
Lemma gold_price_today_offline :
  fst (find_symbol offline "gold price today" initial_world) = Ok (PStr "GC=F")
  /\ fst (generate_fallback_response offline "gold price today" ""
            initial_world) = Ok None
  /\ fst (generate_fallback_response offline "gold price today" ""
            initial_world) <> Ok (Some commodity_template).
Proof. vm_compute. repeat split. discriminate. Qed.

(** ** The ledger *)

Module LedgerFacts.
Import Ledger.

Lemma date_leb_total (r1 r2 : transaction) :
  date_leb r1 r2 = false -> date_leb r2 r1 = true.
Proof.
  unfold date_leb. intros H.
  destruct (String.leb_total (date r1) (date r2)); congruence.
Qed.

Lemma insert_by_date_perm (r : transaction) (l : list transaction) :
  Permutation (r :: l) (insert_by_date r l).
Proof.
  induction l as [|x l IH]; simpl; [reflexivity|].
  destruct (date_leb r x); [reflexivity|].
  rewrite perm_swap. now apply perm_skip.
Qed.

Lemma insert_by_date_hd (r x : transaction) (l : list transaction) :
  date_le x r -> HdRel date_le x l -> HdRel date_le x (insert_by_date r l).
Proof.
  intros Hxr Hhd. destruct l as [|y l]; simpl.
  - now constructor.
  - destruct (date_leb r y); constructor; auto.
    now inversion Hhd.
Qed.

Lemma insert_by_date_sorted (r : transaction) (l : list transaction) :
  Sorted date_le l -> Sorted date_le (insert_by_date r l).
Proof.
  induction 1 as [|x l Hsorted IH Hhd]; simpl.
  - repeat constructor.
  - destruct (date_leb r x) eqn:Hrx.
    + constructor; [now constructor | now constructor].
    + constructor; [exact IH|].
      apply insert_by_date_hd; [|exact Hhd].
      now apply date_leb_total.
Qed.

Lemma order_by_date_sorted (rows : list transaction) :
  Sorted date_le (order_by_date rows).
Proof.
  induction rows as [|r rows IH]; simpl; [constructor|].
  now apply insert_by_date_sorted.
Qed.

Lemma order_by_date_perm (rows : list transaction) :
  Permutation rows (order_by_date rows).
Proof.
  induction rows as [|r rows IH]; simpl; [constructor|].
  rewrite <- insert_by_date_perm. now apply perm_skip.
Qed.

(** [init_db] on a missing file gives the empty ledger, and is
    idempotent. *)
Lemma init_db_idempotent (db : database) :
  init_db (snd (init_db db)) = (Ok tt, snd (init_db db)).
Proof.
  unfold init_db. destruct (transactions db) eqn:H; cbn [snd transactions];
    rewrite ?H; reflexivity.
Qed.

(** The text [isoformat] builds is ten characters long. *)
Lemma isoformat_length (d : day) : String.length (isoformat d) = 10.
Proof. reflexivity. Qed.

Lemma two_digits_table :
  forallb (fun a =>
    forallb (fun b =>
      match String.compare (two_digits a) (two_digits b), Nat.compare a b with
      | Eq, Eq | Lt, Lt | Gt, Gt => true
      | _, _ => false
      end) (seq 0 100)) (seq 0 100) = true.
Proof. vm_compute. reflexivity. Qed.

(** Two digits in front of two texts compare like the numbers, then like
    the texts. *)
Lemma two_digits_compare (a b : nat) (s t : string) :
  a < 100 -> b < 100 ->
  String.compare (two_digits a ++ s) (two_digits b ++ t)
  = match Nat.compare a b with
    | Eq => String.compare s t
    | c => c
    end.
Proof.
  intros Ha Hb. pose proof two_digits_table as T.
  rewrite forallb_forall in T.
  specialize (T a (proj2 (in_seq 100 0 a) (conj (Nat.le_0_l a) Ha))).
  rewrite forallb_forall in T.
  specialize (T b (proj2 (in_seq 100 0 b) (conj (Nat.le_0_l b) Hb))).
  unfold two_digits in *. cbn [String.append String.compare] in *.
  destruct (Ascii.compare (digit (a / 10)) (digit (b / 10)));
    destruct (Ascii.compare (digit a) (digit b));
    destruct (Nat.compare a b); try discriminate T; reflexivity.
Qed.

Lemma year_compare (y1 y2 : nat) :
  Nat.compare y1 y2
  = match Nat.compare (y1 / 100) (y2 / 100) with
    | Eq => Nat.compare (y1 mod 100) (y2 mod 100)
    | c => c
    end.
Proof.
  pose proof (Nat.div_mod_eq y1 100). pose proof (Nat.div_mod_eq y2 100).
  assert (y1 mod 100 < 100) by (apply Nat.mod_upper_bound; discriminate).
  assert (y2 mod 100 < 100) by (apply Nat.mod_upper_bound; discriminate).
  destruct (Nat.compare_spec (y1 / 100) (y2 / 100)) as [He|Hl|Hg].
  - rewrite He in *. destruct (Nat.compare_spec (y1 mod 100) (y2 mod 100)).
    + apply Nat.compare_eq_iff. lia.
    + apply Nat.compare_lt_iff. lia.
    + apply Nat.compare_gt_iff. lia.
  - apply Nat.compare_lt_iff. lia.
  - apply Nat.compare_gt_iff. lia.
Qed.

(** On days in range the ISO texts are ordered as the days are: the
    order of [ORDER BY date] is the order of the calendar. *)
Lemma isoformat_compare (d1 d2 : day) :
  in_range d1 -> in_range d2 ->
  String.compare (isoformat d1) (isoformat d2) = day_compare d1 d2.
Proof.
  intros (Hy1 & Hm1 & Hd1) (Hy2 & Hm2 & Hd2).
  unfold isoformat, day_compare.
  assert (year d1 / 100 < 100) by (apply Nat.Div0.div_lt_upper_bound; lia).
  assert (year d2 / 100 < 100) by (apply Nat.Div0.div_lt_upper_bound; lia).
  assert (year d1 mod 100 < 100) by (apply Nat.mod_upper_bound; discriminate).
  assert (year d2 mod 100 < 100) by (apply Nat.mod_upper_bound; discriminate).
  rewrite (year_compare (year d1) (year d2)).
  rewrite two_digits_compare by lia.
  destruct (Nat.compare (year d1 / 100) (year d2 / 100)); try reflexivity.
  rewrite two_digits_compare by lia.
  destruct (Nat.compare (year d1 mod 100) (year d2 mod 100)); try reflexivity.
  change ("-" ++ two_digits (month d1) ++ "-" ++ two_digits (day_of_month d1))
    with (String "-" (two_digits (month d1) ++ "-" ++ two_digits (day_of_month d1))).
  change ("-" ++ two_digits (month d2) ++ "-" ++ two_digits (day_of_month d2))
    with (String "-" (two_digits (month d2) ++ "-" ++ two_digits (day_of_month d2))).
  cbn [String.compare]. change (Ascii.compare "-" "-") with Eq. cbv iota.
  rewrite two_digits_compare by lia.
  destruct (Nat.compare (month d1) (month d2)); try reflexivity.
  change ("-" ++ two_digits (day_of_month d1))
    with (String "-" (two_digits (day_of_month d1) ++ "")).
  change ("-" ++ two_digits (day_of_month d2))
    with (String "-" (two_digits (day_of_month d2) ++ "")).
  cbn [String.compare]. change (Ascii.compare "-" "-") with Eq. cbv iota.
  rewrite two_digits_compare by lia.
  destruct (Nat.compare (day_of_month d1) (day_of_month d2)); reflexivity.
Qed.

(** C8. On an empty ledger, adding a transaction without a date and then
    listing gives exactly one record, with the category and the amount
    given and the ISO text of today's date; and whatever the table holds,
    the listing is the stored rows, each once, in ascending order of
    their date texts. *)
Theorem add_then_get_all (today : day) (category : string) (amount : float)
    (db : database) :
  transactions db = Some [] ->
  (last_id db < 2 ^ 63 - 1)%Z ->
  (fst (add_transaction today category amount None db) = Ok tt
   /\ get_all_transactions
        (snd (add_transaction today category amount None db))
      = Ok [ {| id := (last_id db + 1)%Z; category := category;
                amount := amount; date := isoformat today |} ])
  /\ (forall db' : database,
        match get_all_transactions db' with
        | Ok listed =>
            exists rows, transactions db' = Some rows
                         /\ Permutation rows listed
                         /\ Sorted date_le listed
        | Raise _ => transactions db' = None
        end).
Proof.
  intros Hempty Hroom. split.
  - unfold add_transaction. rewrite Hempty.
    destruct (Z.ltb_spec (last_id db) (2 ^ 63 - 1)); [|lia].
    split; reflexivity.
  - intros db'. unfold get_all_transactions.
    destruct (transactions db') as [rows|]; [|reflexivity].
    exists rows. split; [reflexivity|]. split.
    + apply order_by_date_perm.
    + apply order_by_date_sorted.
Qed.

Lemma add_then_get_all_groceries :
  get_all_transactions
    (snd (add_transaction {| year := 2026; month := 11; day_of_month := 3 |}
            "groceries" 42.5 None (snd (init_db no_database))))
  = Ok [ {| id := 1; category := "groceries"; amount := 42.5;
            date := "2026-11-03" |} ].
Proof.
  exact (proj2 (proj1 (add_then_get_all
                         {| year := 2026; month := 11; day_of_month := 3 |}
                         "groceries" 42.5 (snd (init_db no_database))
                         eq_refl eq_refl))).
Defined.

End LedgerFacts.

(** * Further properties *)

(** ** The resolver: normalization and unique matches *)

Lemma lower_char_idempotent (c : ascii) :
  lower_char (lower_char c) = lower_char c.
Proof. destruct c as [[] [] [] [] [] [] [] []]; reflexivity. Qed.

Lemma is_space_lower_char (c : ascii) :
  is_space (lower_char c) = is_space c.
Proof. destruct c as [[] [] [] [] [] [] [] []]; reflexivity. Qed.

Lemma lower_idempotent (s : string) : lower (lower s) = lower s.
Proof.
  induction s as [|c s IH]; simpl; [reflexivity|].
  now rewrite lower_char_idempotent, IH.
Qed.

Lemma lstrip_lower (s : string) : lstrip (lower s) = lower (lstrip s).
Proof.
  induction s as [|c s IH]; simpl; [reflexivity|].
  rewrite is_space_lower_char. destruct (is_space c); [exact IH | reflexivity].
Qed.

Lemma rstrip_lower (s : string) : rstrip (lower s) = lower (rstrip s).
Proof.
  induction s as [|c s IH]; simpl; [reflexivity|].
  rewrite IH, is_space_lower_char.
  destruct (rstrip s); simpl; [destruct (is_space c)|]; reflexivity.
Qed.

Lemma rstrip_idempotent (s : string) : rstrip (rstrip s) = rstrip s.
Proof.
  induction s as [|c s IH]; simpl; [reflexivity|].
  destruct (rstrip s) as [|d r] eqn:Hr.
  - destruct (is_space c) eqn:Hc; simpl; [reflexivity | now rewrite Hc].
  - change (rstrip (String c (String d r)))
      with (match rstrip (String d r) with
            | EmptyString =>
                if is_space c then EmptyString else String c EmptyString
            | String a r0 => String c (String a r0)
            end).
    now rewrite IH.
Qed.

Lemma lstrip_starts_clean (s : string) : starts_clean (lstrip s).
Proof.
  induction s as [|c s IH]; simpl; [exact I|].
  destruct (is_space c) eqn:Hc; [exact IH | exact Hc].
Qed.

Lemma rstrip_starts_clean (s : string) :
  starts_clean s -> starts_clean (rstrip s).
Proof.
  destruct s as [|c s]; simpl; [auto|]. intros Hc.
  destruct (rstrip s); [rewrite Hc|]; exact Hc.
Qed.

Lemma lstrip_clean (s : string) : starts_clean s -> lstrip s = s.
Proof. destruct s as [|c s]; simpl; [auto|]. now intros ->. Qed.

Lemma strip_idempotent (s : string) : strip (strip s) = strip s.
Proof.
  unfold strip.
  rewrite (lstrip_clean (rstrip (lstrip s))).
  - apply rstrip_idempotent.
  - apply rstrip_starts_clean, lstrip_starts_clean.
Qed.

Lemma normalize_idempotent (q : string) :
  strip (lower (strip (lower q))) = strip (lower q).
Proof.
  unfold strip at 2.
  rewrite <- rstrip_lower, <- lstrip_lower, lower_idempotent.
  apply strip_idempotent.
Qed.

(** X1. The resolver does not see case or surrounding whitespace: a query
    and its lowercased, stripped form get the same answer, the same
    request included. *)
Theorem find_symbol_on_normalized (E : Env) (query : string) (w : world) :
  find_symbol E (strip (lower query)) w = find_symbol E query w.
Proof. unfold find_symbol. now rewrite normalize_idempotent. Qed.

Lemma prefix_refl (s : string) : prefix s s = true.
Proof. apply prefix_app. exists "". induction s; simpl; congruence. Qed.

Lemma contains_refl (s : string) : contains s s = true.
Proof. destruct s; cbn [contains]; now rewrite prefix_refl. Qed.

Lemma find_is_head_of_filter {A} (p : A -> bool) (l : list A) :
  find p l = hd_error (filter p l).
Proof.
  induction l as [|x l IH]; simpl; [reflexivity|].
  destruct (p x); [reflexivity | exact IH].
Qed.

(** X2. When exactly one item of the merged table matches the
    normalized query (the query occurs in the alias or the alias in the
    query), [find_symbol] returns the symbol of that item and sends
    nothing. *)
Theorem unique_match_resolves (E : Env) (query alias symbol : string)
    (w : world) :
  filter (alias_matches (strip (lower query))) all_symbols
  = [(alias, symbol)] ->
  find_symbol E query w = (Ok (PStr symbol), w).
Proof.
  intros Hone. unfold find_symbol.
  set (q := strip (lower query)) in *.
  assert (Hpm : partial_match q all_symbols = Some symbol).
  { rewrite partial_match_is_find.
    change (fun entry : string * string =>
              contains q (fst entry) || contains (fst entry) q)
      with (alias_matches q).
    now rewrite find_is_head_of_filter, Hone. }
  destruct (dict_get q all_symbols) as [s|] eqn:Hget.
  - rewrite dict_get_is_find in Hget.
    destruct (find (fun entry => String.eqb q (fst entry)) all_symbols)
      as [[k v]|] eqn:Hfind; [|discriminate].
    apply find_some in Hfind as [Hin Hk]. cbn in Hget, Hk.
    apply String.eqb_eq in Hk. subst k. injection Hget as ->.
    assert (Hf : In (q, s) (filter (alias_matches q) all_symbols)).
    { apply filter_In. split; [exact Hin|].
      unfold alias_matches. cbn [fst]. now rewrite contains_refl. }
    rewrite Hone in Hf. destruct Hf as [Hf|[]]. now injection Hf as _ ->.
  - now rewrite Hpm.
Qed.

Lemma unique_match_resolves_relian :
  filter (alias_matches (strip (lower "  Relian "))) all_symbols
  = [("reliance", "RELIANCE.NS")]
  /\ find_symbol offline "  Relian " initial_world
     = (Ok (PStr "RELIANCE.NS"), initial_world).
Proof.
  split; [reflexivity|].
  exact (unique_match_resolves offline "  Relian " "reliance" "RELIANCE.NS"
           initial_world eq_refl).
Defined.

(** ** The quote gateway: repeated calls and freshness *)

(** X3. Asking for the same quote twice in a row is asking once: the
    second call returns what the first returned, sends nothing and
    changes nothing, whether the first was served by the memo table or
    by the network, and whether it gave a quote or [None]. *)
Theorem quote_call_twice (E : Env) (symbol : pyval) (w : world) :
  let (r, w1) := get_yahoo_finance_data E symbol w in
  get_yahoo_finance_data E symbol w1 = (r, w1).
Proof.
  destruct (memo_find pyval_eqb symbol (quote_memo w)) as [[t v]|] eqn:Hfind.
  - destruct (Z.ltb_spec (clock w) (t + 300)) as [Hfresh|Hold].
    + rewrite (quote_hit E symbol w t v Hfind Hfresh).
      exact (quote_hit E symbol w t v Hfind Hfresh).
    + destruct (quote_miss E symbol w) as [v1 [_ Hcall]].
      { rewrite Hfind. lia. }
      rewrite Hcall. apply quote_hit with (t := clock w).
      * simpl. now rewrite pyval_eqb_refl.
      * simpl. lia.
  - destruct (quote_miss E symbol w) as [v1 [_ Hcall]].
    { now rewrite Hfind. }
    rewrite Hcall. apply quote_hit with (t := clock w).
    + simpl. now rewrite pyval_eqb_refl.
    + simpl. lia.
Qed.

Lemma quote_body_timestamp (E : Env) (symbol : pyval) (w w' : world)
    (d : quote) :
  get_yahoo_finance_data_body E symbol w = (Ok (Some d), w') ->
  quote_timestamp d = clock w.
Proof.
  unfold get_yahoo_finance_data_body, try_except, bind, http_get_json,
    lift, ret, now.
  destruct (net E (clock w) (GlobalQuote (py_str E symbol))); [discriminate|].
  destruct (py_get data "Global Quote" (PDict [])) as [q|]; [|discriminate].
  destruct (truthy q); [|discriminate].
  destruct (py_get q "01. symbol" symbol); [|discriminate].
  destruct (py_get q "05. price" (PInt 0)) as [p|]; [|discriminate].
  destruct (py_float E p); [|discriminate].
  destruct (py_get q "09. change" (PInt 0)) as [c|]; [|discriminate].
  destruct (py_float E c); [|discriminate].
  destruct (py_get q "10. change percent" (PStr "0%")) as [cp|]; [|discriminate].
  destruct (py_replace cp "%" ""); [|discriminate].
  destruct (py_get q "06. volume" (PStr "N/A")); [|discriminate].
  intros H. injection H as H _. now subst d.
Qed.

Lemma memo_find_in {K V} (eqb : K -> K -> bool) (k : K) (m : memo K V)
    (e : Z * V) :
  memo_find eqb k m = Some e -> exists k', In (k', e) m.
Proof.
  induction m as [|[k' e'] m IH]; simpl; [discriminate|].
  destruct (eqb k k').
  - intros H. injection H as ->. eauto.
  - intros H. destruct (IH H) as [k0 H0]. eauto.
Qed.

Lemma quote_entry_ok_later (c c' : Z) (entry : pyval * (Z * option quote)) :
  (c <= c')%Z -> quote_entry_ok c entry = true -> quote_entry_ok c' entry = true.
Proof.
  destruct entry as [k [t v]]. unfold quote_entry_ok. intros Hc H.
  apply andb_true_iff in H as [Ht Hv]. apply andb_true_iff. split; [|exact Hv].
  apply Z.leb_le in Ht. apply Z.leb_le. lia.
Qed.

(** X4. A quote that [get_yahoo_finance_data] returns is never older
    than 300 seconds, and never from the future: its timestamp lies in
    the last 300 seconds before the call. The invariant of the memo table
    behind this (an entry carries the time it was stored at) is kept by
    the call and by time passing. *)
Theorem returned_quote_is_fresh (E : Env) (symbol : pyval) (w : world) :
  quote_memo_ok w = true ->
  (forall d, fst (get_yahoo_finance_data E symbol w) = Ok (Some d) ->
             (clock w - 300 < quote_timestamp d <= clock w)%Z)
  /\ (forall dt, (0 <= dt)%Z ->
        quote_memo_ok
          (advance dt (snd (get_yahoo_finance_data E symbol w))) = true).
Proof.
  intros Hok. unfold quote_memo_ok in Hok.
  assert (Hmiss : forall v,
             get_yahoo_finance_data_body E symbol w
             = (Ok v, log_request (GlobalQuote (py_str E symbol)) w) ->
             quote_entry_ok (clock w) (symbol, (clock w, v)) = true).
  { intros v Hv. unfold quote_entry_ok. rewrite Z.leb_refl. cbn [andb].
    destruct v as [d|]; [|reflexivity].
    apply Z.eqb_eq. exact (quote_body_timestamp E symbol w _ d Hv). }
  assert (Hadv : forall dt m,
             (0 <= dt)%Z -> forallb (quote_entry_ok (clock w)) m = true ->
             forallb (quote_entry_ok (clock w + dt)) m = true).
  { intros dt m Hdt Hm. rewrite forallb_forall in *. intros e He.
    apply quote_entry_ok_later with (c := clock w); [lia | auto]. }
  destruct (quote_body_returns E symbol w) as [v Hv].
  unfold get_yahoo_finance_data, cache_data. rewrite Hv.
  destruct (memo_find pyval_eqb symbol (quote_memo w)) as [[t v0]|] eqn:Hfind.
  - destruct (memo_find_in _ _ _ _ Hfind) as [k' Hin].
    pose proof (proj1 (forallb_forall _ _) Hok _ Hin) as He.
    unfold quote_entry_ok in He. apply andb_true_iff in He as [Ht Hd].
    apply Z.leb_le in Ht.
    destruct (Z.ltb_spec (clock w) (t + 300)) as [Hfresh|Hold]; cbn [fst snd].
    + split.
      * intros d Hd'. injection Hd' as ->. apply Z.eqb_eq in Hd. lia.
      * intros dt Hdt. unfold quote_memo_ok. cbn [advance clock quote_memo].
        now apply Hadv.
    + split.
      * intros d Hd'. injection Hd' as ->.
        rewrite (quote_body_timestamp E symbol w _ d Hv). lia.
      * intros dt Hdt. unfold quote_memo_ok.
        cbn [advance clock quote_memo set_quote_memo log_request].
        apply Hadv; [exact Hdt|]. cbn [forallb].
        now rewrite (Hmiss v Hv), Hok.
  - cbn [fst snd]. split.
    + intros d Hd'. injection Hd' as ->.
      rewrite (quote_body_timestamp E symbol w _ d Hv). lia.
    + intros dt Hdt. unfold quote_memo_ok.
      cbn [advance clock quote_memo set_quote_memo log_request].
      apply Hadv; [exact Hdt|]. cbn [forallb].
      now rewrite (Hmiss v Hv), Hok.
Qed.

Lemma returned_quote_is_fresh_after_a_minute :
  quote_memo_ok (advance 5 initial_world) = true
  /\ quote_memo_ok
       (advance 60
          (snd (get_yahoo_finance_data recovering (PStr "AAPL")
                  (advance 5 initial_world)))) = true
  /\ fst (get_yahoo_finance_data recovering (PStr "AAPL")
            (advance 60
               (snd (get_yahoo_finance_data recovering (PStr "AAPL")
                       (advance 5 initial_world)))))
     = Ok (Some {| quote_symbol := PStr "AAPL"; quote_price := 0;
                   quote_change := 0; quote_change_percent := "0";
                   quote_volume := PStr "N/A"; quote_timestamp := 5 |})
  /\ (65 - 300 < 5 <= 65)%Z.
Proof.
  split; [reflexivity|].
  pose proof (proj2 (returned_quote_is_fresh recovering (PStr "AAPL")
                       (advance 5 initial_world) eq_refl) 60%Z
                ltac:(lia)) as Hinv.
  split; [exact Hinv|]. split; [reflexivity|].
  exact (proj1 (returned_quote_is_fresh recovering (PStr "AAPL")
                  (advance 60
                     (snd (get_yahoo_finance_data recovering (PStr "AAPL")
                             (advance 5 initial_world)))) Hinv)
           {| quote_symbol := PStr "AAPL"; quote_price := 0;
              quote_change := 0; quote_change_percent := "0";
              quote_volume := PStr "N/A"; quote_timestamp := 5 |}
           eq_refl).
Defined.

(** ** The forex gateway: short pairs *)

(** X5. A pair of at most three characters, the empty one included, is
    not rejected: the whole text is the base, the quote currency is
    empty, and on a miss of the memo table the request goes out with
    that empty quote currency. *)
Theorem forex_short_pair (E : Env) (pair : string) (w : world) :
  String.length pair <= 3 ->
  memo_find String.eqb pair (forex_memo w) = None ->
  from_curr pair = pair
  /\ to_curr pair = ""
  /\ requests (snd (get_forex_data E pair w))
     = CurrencyExchangeRate pair "" :: requests w.
Proof.
  intros Hlen Hmiss.
  assert (Hsplit : from_curr pair = pair /\ to_curr pair = "").
  { destruct pair as [|a [|b [|c [|d rest]]]]; simpl in Hlen;
      try (split; reflexivity); lia. }
  destruct Hsplit as [Hfrom Hto]. split; [exact Hfrom|]. split; [exact Hto|].
  unfold get_forex_data, cache_data. rewrite Hmiss.
  destruct (forex_body_label E pair w) as [v [Hbody _]].
  rewrite Hbody, Hfrom, Hto. reflexivity.
Qed.

Lemma forex_short_pair_usd :
  requests (snd (get_forex_data offline "USD" initial_world))
  = [CurrencyExchangeRate "USD" ""].
Proof.
  exact (proj2 (proj2 (forex_short_pair offline "USD" initial_world
                         (le_n 3) eq_refl))).
Defined.

(** ** The fallback composer: which answer, and what is in it *)

(** X6. A query without "price", "stock" or "share" gets one of the five
    fixed answers, the same one whatever the context, the environment
    and the world are; nothing is sent and nothing is stored. *)
Theorem fallback_without_price_word (user_query : string) :
  any_in price_words (lower user_query) = false ->
  exists text,
    In text fixed_templates
    /\ forall (E : Env) (context_data : string) (w : world),
         generate_fallback_response E user_query context_data w
         = (Ok (Some text), w).
Proof.
  intros H0. unfold fixed_templates.
  destruct (any_in market_words (lower user_query)) eqn:H1;
    [|destruct (any_in forex_words (lower user_query)) eqn:H2;
      [|destruct (any_in commodity_words (lower user_query)) eqn:H3;
        [|destruct (any_in ["invest"; "portfolio"; "strategy"; "advice"]
                           (lower user_query)) eqn:H4]]];
    eexists; (split; [|intros E c w; unfold generate_fallback_response;
                       fold price_words market_words forex_words
                         commodity_words;
                       rewrite H0, ?H1, ?H2, ?H3, ?H4; reflexivity]);
    simpl; tauto.
Qed.

Lemma fallback_without_price_word_hello :
  any_in price_words (lower "Hello there") = false
  /\ exists text,
       In text fixed_templates
       /\ forall (E : Env) (context_data : string) (w : world),
            generate_fallback_response E "Hello there" context_data w
            = (Ok (Some text), w).
Proof.
  split; [reflexivity|].
  exact (fallback_without_price_word "Hello there" eq_refl).
Defined.

(** X7. The fallback composer returns [None] exactly when the query has
    a price keyword and the gateways give no quote (no symbol resolved,
    or no quote for it); in every other case it returns a text. *)
Theorem fallback_none_iff (E : Env) (user_query context_data : string)
    (w : world) :
  fst (generate_fallback_response E user_query context_data w) = Ok None
  <-> any_in price_words (lower user_query) = true
      /\ snd (gateway_results E user_query w) = Ok None.
Proof.
  unfold generate_fallback_response, gateway_results.
  fold price_words market_words forex_words commodity_words.
  destruct (any_in price_words (lower user_query)).
  - unfold bind. destruct (find_symbol E user_query w) as [[s|e] w1];
      cbn [fst snd].
    + destruct (truthy s); [|cbn [fst ret]; tauto].
      destruct (get_yahoo_finance_data E s w1) as [[[d|]|e] w2];
        cbn [fst ret]; split; try tauto; try discriminate;
        intros [_ H]; discriminate.
    + split; [discriminate | intros [_ H]; discriminate].
  - repeat (destruct (any_in _ _);
            [cbn [fst ret]; split; [discriminate | intros [H _]; discriminate]|]).
    cbn [fst ret]. split; [discriminate | intros [H _]; discriminate].
Qed.

Lemma contains_app_l (x a b : string) :
  contains x a = true -> contains x (a ++ b) = true.
Proof.
  rewrite !contains_occurrence. intros [pre [post ->]].
  exists pre, (post ++ b).
  induction pre; simpl; [|congruence].
  induction x; simpl; [|congruence].
  reflexivity.
Qed.

Lemma contains_app_r (x a b : string) :
  contains x b = true -> contains x (a ++ b) = true.
Proof.
  rewrite !contains_occurrence. intros [pre [post ->]].
  exists (a ++ pre), post. induction a; simpl; congruence.
Qed.

Ltac find_in :=
  first [ apply contains_refl
        | apply contains_app_l; find_in
        | apply contains_app_r; find_in ].

(** X8. When the query has a price keyword and the gateways give a
    quote, the fallback composer returns a text that carries the symbol
    of the quote, its price, its change and change percent, its volume
    and its time as formatted, the context as given, and the word
    "gaining" with the rising chart for a change that is at least zero,
    "declining" with the falling chart otherwise. *)
Theorem price_answer_contents (E : Env) (user_query context_data : string)
    (w : world) (d : quote) :
  any_in price_words (lower user_query) = true ->
  snd (gateway_results E user_query w) = Ok (Some d) ->
  exists text,
    fst (generate_fallback_response E user_query context_data w)
    = Ok (Some text)
    /\ contains (py_str E (quote_symbol d)) text = true
    /\ contains (format_2f E (quote_price d)) text = true
    /\ contains (format_signed_2f E (quote_change d)) text = true
    /\ contains (quote_change_percent d) text = true
    /\ contains (py_str E (quote_volume d)) text = true
    /\ contains (strftime E (quote_timestamp d)) text = true
    /\ contains context_data text = true
    /\ contains (if (0 <=? quote_change d)%float
                 then "gaining" else "declining") text = true
    /\ contains (if (0 <=? quote_change d)%float
                 then "📈" else "📉") text = true.
Proof.
  intros Hword Hquote. exists (price_template E d context_data). split.
  - unfold generate_fallback_response, gateway_results in *.
    fold price_words. rewrite Hword. unfold bind.
    destruct (find_symbol E user_query w) as [[s|e] w1]; cbn [snd] in Hquote;
      [|discriminate].
    destruct (truthy s); [|discriminate].
    destruct (get_yahoo_finance_data E s w1) as [r w2]. cbn [fst] in Hquote.
    subst r. reflexivity.
  - unfold price_template. cbn [unlines]. repeat split; find_in.
Qed.

Lemma price_answer_contents_gold :
  any_in price_words (lower "gold price today") = true
  /\ snd (gateway_results recovering "gold price today"
            (advance 5 initial_world))
     = Ok (Some {| quote_symbol := PStr "GC=F"; quote_price := 0;
                   quote_change := 0; quote_change_percent := "0";
                   quote_volume := PStr "N/A"; quote_timestamp := 5 |})
  /\ exists text,
       fst (generate_fallback_response recovering "gold price today"
              "ctx" (advance 5 initial_world)) = Ok (Some text)
       /\ contains "GC=F" text = true
       /\ contains "gaining" text = true.
Proof.
  split; [reflexivity|]. split; [reflexivity|].
  destruct (price_answer_contents recovering "gold price today" "ctx"
              (advance 5 initial_world)
              {| quote_symbol := PStr "GC=F"; quote_price := 0;
                 quote_change := 0; quote_change_percent := "0";
                 quote_volume := PStr "N/A"; quote_timestamp := 5 |}
              eq_refl eq_refl)
    as [text (H1 & H2 & _ & _ & _ & _ & _ & _ & H9 & _)].
  exists text. repeat split; assumption.
Defined.

(** ** The ledger: ids, round trip, dates *)

Module LedgerMore.
Import Ledger LedgerFacts.

Lemma ids_between_bounds (lo hi : Z) (rows : list transaction) :
  ids_between lo hi rows = true ->
  (lo <= hi)%Z
  /\ Forall (fun r => (lo < id r <= hi)%Z) rows
  /\ NoDup (map id rows).
Proof.
  revert lo. induction rows as [|r rows IH]; intros lo; simpl.
  - intros H. apply Z.leb_le in H. repeat split; [exact H | constructor | constructor].
  - intros H. apply andb_true_iff in H as [Hlo Hrest]. apply Z.ltb_lt in Hlo.
    destruct (IH _ Hrest) as (Hhi & Hall & Hnd). repeat split.
    + lia.
    + constructor; [lia|].
      eapply Forall_impl; [|exact Hall]. cbv beta. intros; lia.
    + constructor; [|exact Hnd].
      intros Hin. apply in_map_iff in Hin as [r' [Heq Hin]].
      rewrite Forall_forall in Hall. specialize (Hall _ Hin). lia.
Qed.

Lemma ids_between_snoc (lo hi : Z) (rows : list transaction)
    (r : transaction) :
  ids_between lo hi rows = true -> (hi < id r)%Z ->
  ids_between lo (id r) (rows ++ [r]) = true.
Proof.
  revert lo. induction rows as [|x rows IH]; intros lo; simpl.
  - intros H Hr. apply Z.leb_le in H.
    rewrite Z.leb_refl, andb_true_r. apply Z.ltb_lt. lia.
  - intros H Hr. apply andb_true_iff in H as [Hlo Hrest].
    rewrite Hlo. cbn [andb]. now apply IH.
Qed.

(** X9. The ids of the ledger are sound: on a ledger whose ids are
    positive, go up in insertion order and stay within the counter,
    [init_db] and [add_transaction] keep that, so the rows
    [get_all_transactions] lists have ids that are positive and
    pairwise different. *)
Theorem ledger_ids_stay_distinct (today : day) (category : string)
    (amount : float) (date : option string) (db : database) :
  ledger_ok db = true ->
  ledger_ok (snd (init_db db)) = true
  /\ ledger_ok (snd (add_transaction today category amount date db)) = true
  /\ match get_all_transactions db with
     | Ok listed =>
         NoDup (map id listed)
         /\ Forall (fun r => (0 < id r <= last_id db)%Z) listed
     | Raise _ => transactions db = None
     end.
Proof.
  unfold ledger_ok, init_db, add_transaction, get_all_transactions.
  destruct (transactions db) as [rows|] eqn:Hrows; intros Hok.
  - split; [cbn [snd]; now rewrite Hrows|]. split.
    + destruct (Z.ltb_spec (last_id db) (2 ^ 63 - 1)); cbn [snd transactions last_id].
      * apply (ids_between_snoc 0 (last_id db) rows
                 {| id := last_id db + 1; category := category;
                    amount := amount;
                    date := match date with
                            | Some d => d
                            | None => isoformat today
                            end |}); [exact Hok | cbn [id]; lia].
      * now rewrite Hrows.
    + destruct (ids_between_bounds _ _ _ Hok) as (_ & Hall & Hnd). split.
      * eapply Permutation_NoDup; [|exact Hnd].
        apply Permutation_map, order_by_date_perm.
      * eapply Permutation_Forall; [apply order_by_date_perm | exact Hall].
  - cbn [snd transactions last_id]. repeat split.
    + cbn [ids_between]. exact Hok.
    + now rewrite Hrows.
Qed.

Lemma ledger_ids_stay_distinct_fresh :
  ledger_ok no_database = true
  /\ ledger_ok
       (snd (add_transaction {| year := 2026; month := 11; day_of_month := 3 |}
               "rent" 900 (Some "2026-11-01") (snd (init_db no_database))))
     = true.
Proof.
  split; [reflexivity|].
  exact (proj1 (proj2 (ledger_ids_stay_distinct
                         {| year := 2026; month := 11; day_of_month := 3 |}
                         "rent" 900 (Some "2026-11-01")
                         (snd (init_db no_database)) eq_refl))).
Defined.

(** X10. Adding a transaction is all or nothing, for an amount the
    REAL column gives back as stored (any float but the NaN and the
    negative zero). When it returns, the listing afterwards is the
    listing before plus one row with the category, the amount and the
    date given (the ISO text of today when no date is given) and the next
    id; when it raises, the ledger is as it was. *)
Theorem add_transaction_is_listed (today : day) (category : string)
    (amount : float) (date : option string) (db : database) :
  kept_by_real amount = true ->
  match add_transaction today category amount date db with
  | (Ok _, db') =>
      exists rows listed,
        get_all_transactions db = Ok rows
        /\ get_all_transactions db' = Ok listed
        /\ Permutation
             ({| id := (last_id db + 1)%Z; category := category;
                 amount := amount;
                 date := match date with
                         | Some d => d
                         | None => isoformat today
                         end |} :: rows) listed
  | (Raise _, db') => db' = db
  end.
Proof.
  intros _. unfold add_transaction, get_all_transactions.
  destruct (transactions db) as [rows|]; [|reflexivity].
  destruct (last_id db <? 2 ^ 63 - 1)%Z; [|reflexivity].
  cbn [transactions]. eexists _, _. split; [reflexivity|]. split; [reflexivity|].
  eapply perm_trans;
    [apply perm_skip; symmetry; apply order_by_date_perm|].
  eapply perm_trans; [apply Permutation_cons_append | apply order_by_date_perm].
Qed.

Lemma add_transaction_is_listed_rent :
  kept_by_real 900 = true
  /\ match add_transaction {| year := 2026; month := 11; day_of_month := 3 |}
             "rent" 900 (Some "2026-11-01") (snd (init_db no_database)) with
     | (Ok _, db') =>
         exists rows listed,
           get_all_transactions (snd (init_db no_database)) = Ok rows
           /\ get_all_transactions db' = Ok listed
           /\ Permutation
                ({| id := 1; category := "rent"; amount := 900;
                    date := "2026-11-01" |} :: rows) listed
     | (Raise _, db') => db' = snd (init_db no_database)
     end.
Proof.
  split; [reflexivity|].
  exact (add_transaction_is_listed
           {| year := 2026; month := 11; day_of_month := 3 |}
           "rent" 900 (Some "2026-11-01") (snd (init_db no_database))
           eq_refl).
Defined.

(** X12. For two rows dated by default on days in range, the order of
    [ORDER BY date] is the order of the calendar: the row of the earlier
    or same day comes first. *)
Theorem default_dates_sort_by_calendar (d1 d2 : day)
    (r1 r2 : transaction) :
  in_range d1 -> in_range d2 ->
  date r1 = isoformat d1 -> date r2 = isoformat d2 ->
  (date_leb r1 r2 = true <-> day_compare d1 d2 <> Gt).
Proof.
  intros H1 H2 E1 E2. unfold date_leb, String.leb. rewrite E1, E2.
  rewrite (isoformat_compare d1 d2 H1 H2).
  destruct (day_compare d1 d2); split; congruence.
Qed.

Lemma default_dates_sort_by_calendar_new_year :
  date_leb {| id := 1; category := "a"; amount := 1; date := "2025-12-31" |}
           {| id := 2; category := "b"; amount := 2; date := "2026-01-01" |}
  = true.
Proof.
  refine (proj2 (default_dates_sort_by_calendar
                   {| year := 2025; month := 12; day_of_month := 31 |}
                   {| year := 2026; month := 1; day_of_month := 1 |}
                   {| id := 1; category := "a"; amount := 1; date := "2025-12-31" |}
                   {| id := 2; category := "b"; amount := 2; date := "2026-01-01" |}
                   _ _ eq_refl eq_refl) _).
  - unfold in_range; simpl; lia.
  - unfold in_range; simpl; lia.
  - discriminate.
Defined.

End LedgerMore.

(** ** The stand-alone quote helper *)

Ltac stock_case :=
  eexists; split; [reflexivity|]; repeat split; intros;
  try (match goal with H : _ \/ _ |- _ => destruct H end); congruence.

(** X13. [get_stock_price] always returns a text and sends exactly one
    request. A failed request (or a body that is not JSON) gives the
    "Error fetching" line; an answer without a "Global Quote" object, or
    with one that lacks the price or the change percent, gives the
    "Could not fetch" line; an answer with both, neither of them empty,
    gives the price line. *)
Theorem get_stock_price_answers (E : Env) (symbol : pyval) (w : world) :
  exists text,
    Stocks.get_stock_price E symbol w
    = (Ok text, log_request (GlobalQuote (py_str E symbol)) w)
    /\ (forall e,
          net E (clock w) (GlobalQuote (py_str E symbol)) = Failed e ->
          text = "Error fetching stock data for " ++ py_str E symbol ++ ".")
    /\ (forall fields,
          net E (clock w) (GlobalQuote (py_str E symbol)) = Body (PDict fields) ->
          dict_get "Global Quote" fields = None ->
          text = "Could not fetch data for " ++ py_str E symbol ++ ".")
    /\ (forall fields items,
          net E (clock w) (GlobalQuote (py_str E symbol)) = Body (PDict fields) ->
          dict_get "Global Quote" fields = Some (PDict items) ->
          dict_get "05. price" items = None
          \/ dict_get "10. change percent" items = None ->
          text = "Could not fetch data for " ++ py_str E symbol ++ ".")
    /\ (forall fields items price change,
          net E (clock w) (GlobalQuote (py_str E symbol)) = Body (PDict fields) ->
          dict_get "Global Quote" fields = Some (PDict items) ->
          dict_get "05. price" items = Some price ->
          dict_get "10. change percent" items = Some change ->
          truthy price = true -> truthy change = true ->
          text = py_str E symbol ++ " price: $" ++ py_str E price
                   ++ ", Change: " ++ py_str E change).
Proof.
  unfold Stocks.get_stock_price, try_except, bind, http_get_json, lift, ret.
  destruct (net E (clock w) (GlobalQuote (py_str E symbol))) as [e|data];
    [stock_case|].
  destruct data as [| | | | | |fields]; try stock_case.
  rewrite py_get_dict.
  destruct (dict_get "Global Quote" fields) as [q|] eqn:Hq.
  - destruct q as [| | | | | |items]; try stock_case.
    rewrite !py_get_dict.
    destruct (dict_get "05. price" items) as [p|] eqn:Hp;
      destruct (dict_get "10. change percent" items) as [c|] eqn:Hc;
      cbn [truthy andb]; rewrite ?andb_false_r; try stock_case.
    destruct (truthy p) eqn:Tp; destruct (truthy c) eqn:Tc; cbn [andb];
      stock_case.
  - rewrite !py_get_dict. cbn [dict_get truthy andb]. stock_case.
Qed.

Lemma get_stock_price_answers_offline :
  Stocks.get_stock_price offline (PStr "AAPL") initial_world
  = (Ok "Error fetching stock data for AAPL.",
     log_request (GlobalQuote "AAPL") initial_world).
Proof.
  destruct (get_stock_price_answers offline (PStr "AAPL") initial_world)
    as [text [Hrun [Hfail _]]].
  rewrite Hrun, (Hfail RequestException eq_refl). reflexivity.
Defined.

(** ** The news gateways *)

Module NewsFacts.
Import News.

Lemma news_key_eqb_refl (k : string * string * Z) : news_key_eqb k k = true.
Proof.
  destruct k as [[c n] t]. unfold news_key_eqb.
  now rewrite !String.eqb_refl, Z.eqb_refl.
Qed.

(** Running the body of [get_financial_news] sends one request and
    returns a list; it raises nothing and leaves the rest of the session
    alone. *)
Lemma news_body_returns (NE : NewsEnv) (category country : string)
    (top_n : Z) (s : session) :
  exists items,
    get_financial_news_body NE (category, country, top_n) s
    = (Ok items, log_news_request (TopHeadlines category country top_n) s)
    /\ (forall found articles,
          headlines NE (clock (market s)) (TopHeadlines category country top_n)
          = Body found ->
          py_get found "articles" (PList []) = Ok (PList articles) ->
          items = match collect_articles articles with
                  | Ok l => l
                  | Raise _ => []
                  end)
    /\ (forall e,
          headlines NE (clock (market s)) (TopHeadlines category country top_n)
          = Failed e -> items = []).
Proof.
  unfold get_financial_news_body, st_try, st_bind, news_get_json, st_lift,
    st_ret.
  destruct (headlines NE (clock (market s))
              (TopHeadlines category country top_n)) as [e|data].
  { eexists. split; [reflexivity|]. split; intros; congruence. }
  destruct (py_get data "articles" (PList [])) as [found|e] eqn:Hget.
  - destruct (py_iter found) as [articles|e] eqn:Hiter.
    + destruct (collect_articles articles) as [l|e] eqn:Hcol;
        (eexists; split; [reflexivity|]; split; [|intros; congruence]);
        intros f a Hf Ha; injection Hf as <-; rewrite Hget in Ha;
        injection Ha as ->; cbn in Hiter; injection Hiter as <-;
        now rewrite Hcol.
    + eexists. split; [reflexivity|]. split; [|intros; congruence].
      intros f a Hf Ha. injection Hf as <-. rewrite Hget in Ha.
      injection Ha as ->. discriminate.
  - eexists. split; [reflexivity|]. split; [|intros; congruence].
    intros f a Hf Ha. injection Hf as <-. congruence.
Qed.

(** X14. [get_financial_news] never raises, and asking twice in a row is
    asking once: the second call returns the list the first returned
    (the empty list of a failed fetch too), sends nothing and changes
    nothing. The market world and the chat history are not touched. *)
Theorem news_call_twice (NE : NewsEnv) (category country : string)
    (top_n : Z) (s : session) :
  exists items s1,
    get_financial_news NE category country top_n s = (Ok items, s1)
    /\ get_financial_news NE category country top_n s1 = (Ok items, s1)
    /\ market s1 = market s
    /\ messages s1 = messages s.
Proof.
  unfold get_financial_news, cache_data_session.
  destruct (news_body_returns NE category country top_n s)
    as [items [Hbody _]].
  rewrite Hbody.
  assert (Hstored :
            forall m,
              let s1 := set_news_memo
                          (((category, country, top_n),
                            (clock (market s), items)) :: m)
                          (log_news_request
                             (TopHeadlines category country top_n) s) in
              (let miss :=
                 match get_financial_news_body NE (category, country, top_n) s1 with
                 | (Ok v, s') =>
                     (Ok v, set_news_memo
                              (((category, country, top_n),
                                (clock (market s'), v)) :: news_memo s') s')
                 | (Raise e, s') => (Raise e, s')
                 end in
               match memo_find news_key_eqb (category, country, top_n)
                       (news_memo s1) with
               | Some (t, v) =>
                   if (clock (market s1) <? t + 1800)%Z then (Ok v, s1) else miss
               | None => miss
               end) = (Ok items, s1)).
  { intros m s1. subst s1. cbn [news_memo set_news_memo memo_find].
    rewrite news_key_eqb_refl. cbn [market set_news_memo log_news_request].
    destruct (Z.ltb_spec (clock (market s)) (clock (market s) + 1800));
      [reflexivity | lia]. }
  destruct (memo_find news_key_eqb (category, country, top_n) (news_memo s))
    as [[t v]|] eqn:Hfind.
  - destruct (clock (market s) <? t + 1800)%Z eqn:Hfresh.
    + exists v, s. rewrite Hfind, Hfresh. repeat split; reflexivity.
    + eexists _, _. split; [reflexivity|]. split; [apply Hstored|].
      split; reflexivity.
  - eexists _, _. split; [reflexivity|]. split; [apply Hstored|].
    split; reflexivity.
Qed.

(** X15. One article that cannot be read loses them all: when an item of
    "articles" is not an object, or its "source" is there and is not an
    object (a JSON null, say), a fetch returns the empty list, whatever
    the other articles are. *)
Theorem one_bad_article_drops_all (NE : NewsEnv) (category country : string)
    (top_n : Z) (s : session) (fields : list (string * pyval))
    (articles : list pyval) (bad : pyval) (e : exn) :
  memo_find news_key_eqb (category, country, top_n) (news_memo s) = None ->
  headlines NE (clock (market s)) (TopHeadlines category country top_n)
  = Body (PDict fields) ->
  dict_get "articles" fields = Some (PList articles) ->
  In bad articles ->
  news_item_of bad = Raise e ->
  fst (get_financial_news NE category country top_n s) = Ok [].
Proof.
  intros Hmiss Hnet Hart Hin Hbad.
  unfold get_financial_news, cache_data_session. rewrite Hmiss.
  destruct (news_body_returns NE category country top_n s)
    as [items [Hbody [Hok _]]].
  rewrite Hbody. cbn [fst]. f_equal.
  rewrite (Hok (PDict fields) articles Hnet).
  2:{ rewrite py_get_dict, Hart. reflexivity. }
  assert (Hcol : exists e', collect_articles articles = Raise e').
  { clear -Hin Hbad. induction articles as [|a l IH]; [destruct Hin|].
    cbn [collect_articles]. destruct Hin as [->|Hin].
    - rewrite Hbad. cbn. eauto.
    - destruct (news_item_of a); cbn; [|eauto].
      destruct (IH Hin) as [e' ->]. cbn. eauto. }
  destruct Hcol as [e' ->]. reflexivity.
Qed.

Lemma one_bad_article_drops_all_null_source :
  news_item_of (PDict [("title", PStr "Rates on hold"); ("source", PNone)])
  = Raise AttributeError
  /\ fst (get_financial_news headlines_null_source "business" "us" 3
            initial_session) = Ok [].
Proof.
  split; [reflexivity|].
  refine (one_bad_article_drops_all headlines_null_source "business" "us" 3
            initial_session _ _
            (PDict [("title", PStr "Rates on hold"); ("source", PNone)])
            AttributeError eq_refl eq_refl eq_refl _ eq_refl).
  simpl. right. left. reflexivity.
Defined.

Lemma collect_articles_length (articles : list pyval) (items : list news_item) :
  collect_articles articles = Ok items -> length items = length articles.
Proof.
  revert items. induction articles as [|a l IH]; intros items; simpl.
  - intros H. injection H as <-. reflexivity.
  - destruct (news_item_of a); cbn; [|discriminate].
    destruct (collect_articles l) as [l'|]; cbn; [|discriminate].
    intros H. injection H as <-. simpl. f_equal. now apply IH.
Qed.

(** X16. [top_n] only goes into the request: when every article of the
    answer can be read, a fetch returns one item per article, in the
    order of the answer, however many the answer holds. *)
Theorem news_list_is_not_cut (NE : NewsEnv) (category country : string)
    (top_n : Z) (s : session) (fields : list (string * pyval))
    (articles : list pyval) (items : list news_item) :
  memo_find news_key_eqb (category, country, top_n) (news_memo s) = None ->
  headlines NE (clock (market s)) (TopHeadlines category country top_n)
  = Body (PDict fields) ->
  dict_get "articles" fields = Some (PList articles) ->
  collect_articles articles = Ok items ->
  fst (get_financial_news NE category country top_n s) = Ok items
  /\ length items = length articles
  /\ map (fun a => news_item_of a) articles = map Ok items.
Proof.
  intros Hmiss Hnet Hart Hcol.
  unfold get_financial_news, cache_data_session. rewrite Hmiss.
  destruct (news_body_returns NE category country top_n s)
    as [items' [Hbody [Hok _]]].
  rewrite Hbody. cbn [fst].
  rewrite (Hok (PDict fields) articles Hnet).
  2:{ rewrite py_get_dict, Hart. reflexivity. }
  rewrite Hcol. split; [reflexivity|]. split.
  - now apply collect_articles_length.
  - clear -Hcol. revert items Hcol.
    induction articles as [|a l IH]; intros items; simpl.
    + intros H. injection H as <-. reflexivity.
    + destruct (news_item_of a); cbn; [|discriminate].
      destruct (collect_articles l) as [l'|]; cbn; [|discriminate].
      intros H. injection H as <-. simpl. f_equal. now apply IH.
Qed.

Lemma news_list_is_not_cut_two_for_one :
  fst (get_financial_news headlines_two "business" "us" 1 initial_session)
  = Ok [ {| title := PStr "Markets rally"; description := PStr "";
            source := PStr "Wire"; url := PStr ""; publishedAt := PStr "" |};
         {| title := PStr "Rates on hold"; description := PNone;
            source := PStr "Desk"; url := PStr ""; publishedAt := PStr "" |} ].
Proof.
  exact (proj1 (news_list_is_not_cut headlines_two "business" "us" 1
                  initial_session _ _ _ eq_refl eq_refl eq_refl eq_refl)).
Defined.

End NewsFacts.

(** ** The second news helper and the chat turn *)

Module ChatFacts.
Import News.

(** X17. [get_latest_finance_news] always returns a list and sends a
    request at every call (it has no memo table). A failed request gives
    the one apology line, never the empty list; an answer without
    "articles" (an error object, say) gives the empty list; an answer
    whose articles can all be read gives one line per article. *)
Theorem latest_news_answers (E : Env) (NE : NewsEnv) (top_n : Z)
    (s : session) :
  exists lines,
    get_latest_finance_news E NE top_n s
    = (Ok lines, log_news_request (BusinessHeadlines top_n) s)
    /\ (forall e,
          headlines NE (clock (market s)) (BusinessHeadlines top_n) = Failed e ->
          lines = ["Could not fetch news at this time."])
    /\ (forall fields,
          headlines NE (clock (market s)) (BusinessHeadlines top_n)
          = Body (PDict fields) ->
          dict_get "articles" fields = None -> lines = [])
    /\ (forall fields articles ls,
          headlines NE (clock (market s)) (BusinessHeadlines top_n)
          = Body (PDict fields) ->
          dict_get "articles" fields = Some (PList articles) ->
          collect_lines E articles = Ok ls ->
          lines = ls).
Proof.
  unfold get_latest_finance_news, st_try, st_bind, news_get_json, st_lift,
    st_ret.
  destruct (headlines NE (clock (market s)) (BusinessHeadlines top_n))
    as [e|data].
  { eexists. split; [reflexivity|]. repeat split; intros; congruence. }
  destruct data as [| | | | | |fields];
    try (eexists; split; [reflexivity|]; repeat split; intros; congruence).
  rewrite py_get_dict.
  destruct (dict_get "articles" fields) as [found|] eqn:Hfound.
  - destruct (py_iter found) as [articles|e] eqn:Hiter.
    + destruct (collect_lines E articles) as [ls|e] eqn:Hcol;
        (eexists; split; [reflexivity|]); repeat split; intros;
        try congruence;
        match goal with
        | H : Body _ = Body _ |- _ => injection H as <-
        end;
        match goal with
        | H : dict_get "articles" fields = Some (PList _) |- _ =>
            rewrite Hfound in H; injection H as ->
        end;
        cbn in Hiter; injection Hiter as <-; congruence.
    + eexists. split; [reflexivity|]. repeat split; intros; try congruence.
      match goal with
      | H : Body _ = Body _ |- _ => injection H as <-
      end.
      match goal with
      | H : dict_get "articles" fields = Some (PList _) |- _ =>
          rewrite Hfound in H; injection H as ->
      end.
      discriminate.
  - cbn [py_iter collect_lines]. eexists. split; [reflexivity|].
    repeat split; intros; congruence.
Qed.

Lemma latest_news_answers_down :
  get_latest_finance_news offline headlines_down 3 initial_session
  = (Ok ["Could not fetch news at this time."],
     log_news_request (BusinessHeadlines 3) initial_session).
Proof.
  destruct (latest_news_answers offline headlines_down 3 initial_session)
    as [lines [Hrun [Hfail _]]].
  rewrite Hrun, (Hfail RequestException eq_refl). reflexivity.
Defined.

Lemma keeps_ret {A} (a : A) : keeps_messages (st_ret a).
Proof. intros s. reflexivity. Qed.

Lemma keeps_lift {A} (r : res A) : keeps_messages (st_lift r).
Proof. intros s. reflexivity. Qed.

Lemma keeps_in_market {A} (m : M A) : keeps_messages (in_market m).
Proof. intros s. unfold in_market. destruct (m (market s)). reflexivity. Qed.

Lemma keeps_bind {A B} (m : ST session A) (k : A -> ST session B) :
  keeps_messages m -> (forall a, keeps_messages (k a)) ->
  keeps_messages (st_bind m k).
Proof.
  intros Hm Hk s. unfold st_bind. specialize (Hm s).
  destruct (m s) as [[a|e] s1]; cbn [snd] in *; [|exact Hm].
  now rewrite Hk.
Qed.

Lemma keeps_news (NE : NewsEnv) (category country : string) (top_n : Z) :
  keeps_messages (get_financial_news NE category country top_n).
Proof.
  intros s. unfold get_financial_news, cache_data_session.
  destruct (NewsFacts.news_body_returns NE category country top_n s)
    as [items [Hbody _]].
  rewrite Hbody.
  destruct (memo_find _ _ _) as [[t v]|]; [|reflexivity].
  destruct (_ <? _)%Z; reflexivity.
Qed.

Lemma keeps_market_context (E : Env) (prompt : string) :
  keeps_messages (market_context E prompt).
Proof.
  unfold market_context. destruct (any_in _ _); [|apply keeps_ret].
  apply keeps_bind; [apply keeps_in_market|]. intros symbol.
  destruct (truthy symbol); [|apply keeps_ret].
  apply keeps_bind; [apply keeps_lift|]. intros has_eq.
  apply keeps_bind.
  { destruct has_eq; [apply keeps_ret | apply keeps_lift]. }
  intros _. apply keeps_bind; [apply keeps_in_market|].
  intros [d|]; apply keeps_ret.
Qed.

Lemma keeps_news_context (NE : NewsEnv) (context_data : string) :
  keeps_messages (news_context NE context_data).
Proof.
  unfold news_context. apply keeps_bind; [apply keeps_news|].
  intros [|item news]; [apply keeps_ret|].
  apply keeps_bind; [apply keeps_lift|]. intros joined. apply keeps_ret.
Qed.

(** X18. The chat history after a turn: the user message is always
    appended to what was there. When the turn completes, one assistant
    message follows it, and its content is what [generate_ai_response]
    returned for the prompt and the context built by the market part and
    then the news part, in the world the two left; the market world
    after the turn is the one that call left. When the turn raises, the
    user message stays without an answer. Earlier messages are never
    changed. *)
Theorem chat_turn_history (E : Env) (NE : NewsEnv) (prompt : string)
    (s : session) :
  match chat_turn E NE prompt s with
  | (Ok _, s') =>
      exists c1 s1 c2 s2 response w3,
        market_context E prompt
          (snd (append_message {| role := "user"; content := Some prompt |} s))
        = (Ok c1, s1)
        /\ news_context NE c1 s1 = (Ok c2, s2)
        /\ generate_ai_response E prompt c2 (market s2) = (Ok response, w3)
        /\ market s' = w3
        /\ messages s'
           = (messages s
                ++ [ {| role := "user"; content := Some prompt |};
                     {| role := "assistant"; content := response |} ])%list
  | (Raise _, s') =>
      messages s'
      = (messages s ++ [ {| role := "user"; content := Some prompt |} ])%list
  end.
Proof.
  pose (s0 := snd (append_message
                     {| role := "user"; content := Some prompt |} s)).
  assert (M0 : messages s0
               = (messages s
                    ++ [ {| role := "user"; content := Some prompt |} ])%list)
    by reflexivity.
  change (chat_turn E NE prompt s)
    with ((context_data <~ market_context E prompt ;;
           context_data <~ news_context NE context_data ;;
           response <~ in_market
                         (generate_ai_response E prompt context_data) ;;
           append_message {| role := "assistant"; content := response |}) s0).
  fold s0. unfold st_bind at 1.
  pose proof (keeps_market_context E prompt s0) as K1.
  destruct (market_context E prompt s0) as [[c1|e] s1]; cbn [snd] in K1;
    [|congruence].
  unfold st_bind at 1.
  pose proof (keeps_news_context NE c1 s1) as K2.
  destruct (news_context NE c1 s1) as [[c2|e] s2] eqn:H2; cbn [snd] in K2;
    [|congruence].
  unfold st_bind at 1. unfold in_market at 1.
  destruct (generate_ai_response E prompt c2 (market s2))
    as [[response|e] w3] eqn:H3.
  - cbn [append_message]. exists c1, s1, c2, s2, response, w3.
    split; [reflexivity|]. split; [exact H2|]. split; [exact H3|].
    split; [reflexivity|].
    cbn [messages set_market]. rewrite K2, K1, M0, <- app_assoc. reflexivity.
  - cbn [messages set_market]. congruence.
Qed.

(** X19. A headline without a text title breaks the turn: when the
    prompt needs no symbol lookup, the news list is not empty and one of
    its first three titles is not a str (a JSON null, say), the join of
    the titles raises, nothing catches it, and the turn ends with the
    user message unanswered. *)
Theorem bad_title_breaks_turn (E : Env) (NE : NewsEnv) (prompt : string)
    (s : session) (news : list news_item) (e : exn) :
  any_in lookup_words (lower prompt) = false ->
  fst (get_financial_news NE "business" "us" 3
         (snd (append_message {| role := "user"; content := Some prompt |} s)))
  = Ok news ->
  news <> [] ->
  py_join "; " (map title (firstn 3 news)) = Raise e ->
  fst (chat_turn E NE prompt s) = Raise e.
Proof.
  intros Hword Hnews Hne Hjoin.
  unfold chat_turn, market_context. rewrite Hword.
  unfold st_bind at 1. cbn [append_message snd] in *.
  unfold st_bind at 1. cbn [st_ret].
  unfold st_bind at 1. unfold news_context at 1. unfold st_bind at 1.
  destruct (get_financial_news NE "business" "us" 3 _) as [r s1].
  cbn [fst] in Hnews. subst r.
  destruct news as [|item rest]; [congruence|].
  unfold st_bind at 1. unfold st_lift. rewrite Hjoin. reflexivity.
Qed.

Lemma bad_title_breaks_turn_null_title :
  fst (chat_turn offline headlines_null_title "hello" initial_session)
  = Raise TypeError.
Proof.
  refine (bad_title_breaks_turn offline headlines_null_title "hello"
            initial_session
            [ {| title := PStr "Markets rally"; description := PStr "";
                 source := PStr "Wire"; url := PStr "";
                 publishedAt := PStr "" |};
              {| title := PNone; description := PStr "";
                 source := PStr "Desk"; url := PStr "";
                 publishedAt := PStr "" |} ]
            TypeError eq_refl eq_refl _ eq_refl).
  discriminate.
Defined.

End ChatFacts.

(** ** The chat turn and the quote endpoint *)

Module TurnFacts.
Import News.

(** What [find_symbol] does to a world: it returns, leaves clock and
    quote memo table alone, sends no quote request, and its value is the
    same in every world of the same clock. *)
Lemma find_symbol_effect (E : Env) (query : string) (w : world) :
  exists v w',
    find_symbol E query w = (Ok v, w')
    /\ clock w' = clock w
    /\ quote_memo w' = quote_memo w
    /\ quote_requests (requests w') = quote_requests (requests w)
    /\ (forall w2, clock w2 = clock w -> fst (find_symbol E query w2) = Ok v).
Proof.
  unfold find_symbol.
  destruct (dict_get _ all_symbols) as [s|].
  { exists (PStr s), w. repeat split; reflexivity. }
  destruct (partial_match _ all_symbols) as [s|].
  { exists (PStr s), w. repeat split; reflexivity. }
  rewrite remote_step. eexists _, _. split; [reflexivity|].
  repeat split; try reflexivity.
  intros w2 Hc. rewrite remote_step, Hc. reflexivity.
Qed.

(** What [get_yahoo_finance_data] does to a world. *)
Lemma quote_call_effect (E : Env) (symbol : pyval) (w : world) :
  exists v w',
    get_yahoo_finance_data E symbol w = (Ok v, w')
    /\ clock w' = clock w
    /\ quote_requests (requests w') <= S (quote_requests (requests w))
    /\ has_fresh_quote symbol w' = true
    /\ (has_fresh_quote symbol w = true -> w' = w).
Proof.
  unfold has_fresh_quote.
  destruct (memo_find pyval_eqb symbol (quote_memo w)) as [[t v]|] eqn:Hfind.
  - destruct (Z.ltb_spec (clock w) (t + 300)) as [Hfresh|Hold].
    + exists v, w. rewrite (quote_hit E symbol w t v Hfind Hfresh), Hfind.
      repeat split; auto. now apply Z.ltb_lt.
    + destruct (quote_miss E symbol w) as [v1 [_ Hcall]].
      { rewrite Hfind. lia. }
      eexists _, _. split; [exact Hcall|].
      cbn [clock quote_memo requests set_quote_memo log_request memo_find
             quote_requests].
      rewrite pyval_eqb_refl. repeat split; auto.
      * apply Z.ltb_lt. lia.
      * discriminate.
  - destruct (quote_miss E symbol w) as [v1 [_ Hcall]].
    { now rewrite Hfind. }
    eexists _, _. split; [exact Hcall|].
    cbn [clock quote_memo requests set_quote_memo log_request memo_find
           quote_requests].
    rewrite pyval_eqb_refl. repeat split; auto.
    + apply Z.ltb_lt. lia.
    + discriminate.
Qed.

(** What the fallback composer does to a world: at most one quote
    request, and none when the symbol it resolves is falsy or has a
    fresh entry in the memo table. *)
Lemma fallback_effect (E : Env) (user_query context_data : string)
    (w : world) :
  exists v w',
    generate_fallback_response E user_query context_data w = (Ok v, w')
    /\ quote_requests (requests w') <= S (quote_requests (requests w))
    /\ (forall symbol,
          fst (find_symbol E user_query w) = Ok symbol ->
          (truthy symbol = true -> has_fresh_quote symbol w = true) ->
          quote_requests (requests w') = quote_requests (requests w)).
Proof.
  unfold generate_fallback_response.
  destruct (any_in _ _).
  - unfold bind.
    destruct (find_symbol_effect E user_query w)
      as (sym & w1 & Hfs & Hc1 & Hm1 & Hr1 & _).
    rewrite Hfs. destruct (truthy sym) eqn:Ht.
    + destruct (quote_call_effect E sym w1)
        as (d & w2 & Hq & Hc2 & Hr2 & _ & Hsame).
      rewrite Hq.
      exists (match d with
              | Some d0 => Some (price_template E d0 context_data)
              | None => None
              end), w2.
      split; [destruct d; reflexivity|]. split; [lia|].
      intros symbol Hs Hfresh. cbn [fst] in Hs. injection Hs as <-.
      specialize (Hfresh Ht).
      rewrite Hsame; [exact Hr1|].
      unfold has_fresh_quote in *. now rewrite Hm1, Hc1.
    + exists None, w1. split; [reflexivity|]. split; [lia|]. intros; exact Hr1.
  - repeat (destruct (any_in _ _);
            [eexists _, w; split; [reflexivity|]; split; [lia|reflexivity]|]).
    eexists _, w. split; [reflexivity|]. split; [lia|reflexivity].
Qed.

(** The same for the composer with the generative path in front. *)
Lemma ai_effect (E : Env) (user_query context_data : string) (w : world) :
  exists v w',
    generate_ai_response E user_query context_data w = (Ok v, w')
    /\ quote_requests (requests w') <= S (quote_requests (requests w))
    /\ (forall symbol,
          fst (find_symbol E user_query w) = Ok symbol ->
          (truthy symbol = true -> has_fresh_quote symbol w = true) ->
          quote_requests (requests w') = quote_requests (requests w)).
Proof.
  unfold generate_ai_response, try_except.
  destruct (first_model E model_names) as [model|].
  - unfold bind, now, lift, ret.
    destruct (generate_content E (clock w) model _) as [text|e].
    + exists (Some text), w. split; [reflexivity|]. split; [lia|reflexivity].
    + apply fallback_effect.
  - destruct (fallback_effect E user_query context_data w)
      as (v & w' & H & Hrest).
    rewrite H. eauto.
Qed.

Lemma keeps_market_ret {A} (a : A) : keeps_market (st_ret a).
Proof. intros s. reflexivity. Qed.

Lemma keeps_market_lift {A} (r : res A) : keeps_market (st_lift r).
Proof. intros s. reflexivity. Qed.

Lemma keeps_market_bind {A B} (m : ST session A) (k : A -> ST session B) :
  keeps_market m -> (forall a, keeps_market (k a)) ->
  keeps_market (st_bind m k).
Proof.
  intros Hm Hk s. unfold st_bind. specialize (Hm s).
  destruct (m s) as [[a|e] s1]; cbn [snd] in *; [|exact Hm].
  now rewrite Hk.
Qed.

Lemma keeps_market_news_context (NE : NewsEnv) (context_data : string) :
  keeps_market (news_context NE context_data).
Proof.
  unfold news_context. apply keeps_market_bind.
  - intros s. unfold get_financial_news, cache_data_session.
    destruct (NewsFacts.news_body_returns NE "business" "us" 3 s)
      as [items [Hbody _]].
    rewrite Hbody.
    destruct (memo_find _ _ _) as [[t v]|]; [|reflexivity].
    destruct (_ <? _)%Z; reflexivity.
  - intros [|item news]; [apply keeps_market_ret|].
    apply keeps_market_bind; [apply keeps_market_lift|].
    intros joined. apply keeps_market_ret.
Qed.

(** What the market part of the context does to the market world: no
    quote request, or one, and then the symbol the resolver gives at
    this clock has a fresh entry. *)
Lemma market_context_effect (E : Env) (prompt : string) (s : session) :
  exists w',
    market (snd (market_context E prompt s)) = w'
    /\ (quote_requests (requests w') = quote_requests (requests (market s))
        \/ (quote_requests (requests w')
            = S (quote_requests (requests (market s)))
            /\ forall symbol,
                 fst (find_symbol E prompt w') = Ok symbol ->
                 truthy symbol = true -> has_fresh_quote symbol w' = true)).
Proof.
  unfold market_context.
  destruct (any_in _ _); [|eexists; split; [reflexivity|left; reflexivity]].
  unfold st_bind at 1. unfold in_market at 1.
  destruct (find_symbol_effect E prompt (market s))
    as (sym & w1 & Hfs & Hc1 & Hm1 & Hr1 & Hval).
  rewrite Hfs. destruct (truthy sym);
    [|eexists; split; [reflexivity|left; exact Hr1]].
  unfold st_bind at 1. unfold st_lift at 1.
  destruct (py_in "=" sym) as [has_eq|e];
    [|eexists; split; [reflexivity|left; exact Hr1]].
  unfold st_bind at 1.
  assert (Hstep : exists r,
             (if has_eq then st_ret true
              else st_lift (py_endswith sym "=X")) (set_market w1 s)
             = (r, set_market w1 s)).
  { destruct has_eq; eexists; reflexivity. }
  destruct Hstep as [r ->].
  destruct r as [b|e]; [|eexists; split; [reflexivity|left; exact Hr1]].
  unfold st_bind at 1. unfold in_market at 1. cbn [market set_market].
  destruct (quote_call_effect E sym w1)
    as (d & w2 & Hq & Hc2 & Hr2 & Hfresh & _).
  rewrite Hq. exists w2. split; [destruct d; reflexivity|].
  assert (Hle : quote_requests (requests w2) = quote_requests (requests (market s))
                \/ quote_requests (requests w2)
                   = S (quote_requests (requests (market s)))).
  { unfold get_yahoo_finance_data, cache_data in Hq.
    destruct (quote_body_returns E sym w1) as [v Hv]. rewrite Hv in Hq.
    destruct (memo_find pyval_eqb sym (quote_memo w1)) as [[t v0]|].
    - destruct (clock w1 <? t + 300)%Z; injection Hq as _ <-;
        cbn [requests set_quote_memo log_request quote_requests]; lia.
    - injection Hq as _ <-.
      cbn [requests set_quote_memo log_request quote_requests]. lia. }
  destruct Hle as [Hle|Hle]; [left; exact Hle|].
  right. split; [exact Hle|].
  intros symbol Hs _. rewrite (Hval w2) in Hs by lia.
  injection Hs as <-. exact Hfresh.
Qed.

(** X20. A chat turn asks the quote endpoint at most once, although the
    page fetches the quote for the context and the fallback composer
    fetches it again for its answer: the second fetch is served by the
    memo table. *)
Theorem one_quote_request_per_turn (E : Env) (NE : NewsEnv)
    (prompt : string) (s : session) :
  quote_requests (requests (market (snd (chat_turn E NE prompt s))))
  <= S (quote_requests (requests (market s))).
Proof.
  pose (s0 := {| market := market s; news_memo := news_memo s;
                 news_requests := news_requests s;
                 messages := (messages s
                                ++ [ {| role := "user";
                                        content := Some prompt |} ])%list |}).
  change (market s) with (market s0).
  change (chat_turn E NE prompt s)
    with ((context_data <~ market_context E prompt ;;
           context_data <~ news_context NE context_data ;;
           response <~ in_market
                         (generate_ai_response E prompt context_data) ;;
           append_message {| role := "assistant"; content := response |}) s0).
  unfold st_bind at 1.
  destruct (market_context_effect E prompt s0) as (w1 & Hw1 & Hmc).
  destruct (market_context E prompt s0) as [[c1|e] s1]; cbn [snd] in *;
    [|rewrite Hw1; destruct Hmc as [->|[-> _]]; lia].
  unfold st_bind at 1.
  pose proof (keeps_market_news_context NE c1 s1) as Hnc.
  destruct (news_context NE c1 s1) as [[c2|e] s2]; cbn [snd] in *;
    [|rewrite Hnc, Hw1; destruct Hmc as [->|[-> _]]; lia].
  unfold st_bind at 1. unfold in_market at 1. rewrite Hnc, Hw1.
  destruct (ai_effect E prompt c2 w1) as (v & w' & Hai & Hle & Hzero).
  rewrite Hai. cbn [append_message snd market set_market].
  destruct Hmc as [Hsame|[Hone Hfresh]].
  - lia.
  - destruct (find_symbol_effect E prompt w1) as (sym & wx & Hfs & _).
    rewrite (Hzero sym); [lia | now rewrite Hfs |].
    apply Hfresh. now rewrite Hfs.
Qed.

End TurnFacts.

(** ** The composer and the turn: what can escape *)

Module EscapeFacts.
Import News.

(** X21. [generate_ai_response] always returns. When a candidate model
    can be built and its call gives a text, that text is returned as it
    is and the world is not touched; when no candidate can be built, or
    the call of the first one that can fails, the call is exactly a call
    of the fallback composer. *)
Theorem composer_always_returns (E : Env) (user_query context_data : string)
    (w : world) :
  (exists v w', generate_ai_response E user_query context_data w = (Ok v, w'))
  /\ (forall model text,
        first_model E model_names = Some model ->
        generate_content E (clock w) model (prompt user_query context_data)
        = Ok text ->
        generate_ai_response E user_query context_data w = (Ok (Some text), w))
  /\ (first_model E model_names = None
      \/ (exists model e,
            first_model E model_names = Some model
            /\ generate_content E (clock w) model
                 (prompt user_query context_data) = Raise e) ->
      generate_ai_response E user_query context_data w
      = generate_fallback_response E user_query context_data w).
Proof.
  destruct (generate_fallback_response_returns E user_query context_data w)
    as [v [w' Hfb]].
  unfold generate_ai_response, try_except.
  destruct (first_model E model_names) as [model|].
  - unfold bind, now, lift, ret.
    destruct (generate_content E (clock w) model _) as [text|e] eqn:Hgen.
    + split; [eauto|]. split.
      * intros m t Hm Ht. injection Hm as <-. congruence.
      * intros [H|(m & e & Hm & He)]; [discriminate|].
        injection Hm as <-. congruence.
    + split; [rewrite Hfb; eauto|]. split.
      * intros m t Hm Ht. injection Hm as <-. congruence.
      * reflexivity.
  - rewrite Hfb. split; [eauto|]. split; [discriminate | reflexivity].
Qed.

Lemma composer_always_returns_offline :
  generate_ai_response offline "hello" "" initial_world
  = generate_fallback_response offline "hello" "" initial_world.
Proof.
  refine (proj2 (proj2 (composer_always_returns offline "hello" "" initial_world))
            (or_intror (ex_intro _ "gemini-1.5-flash"
                          (ex_intro _ GenerationError (conj eq_refl eq_refl))))).
Defined.

(** X22. The symbol the search endpoint gives is used as it comes: when
    the prompt asks for a lookup and the resolver returns a truthy value
    on which the test for "=" raises (a number, say), nothing catches
    it and the turn raises. *)
Theorem odd_symbol_breaks_turn (E : Env) (NE : NewsEnv) (prompt : string)
    (s : session) (symbol : pyval) (e : exn) :
  any_in lookup_words (lower prompt) = true ->
  fst (find_symbol E prompt (market s)) = Ok symbol ->
  truthy symbol = true ->
  py_in "=" symbol = Raise e ->
  fst (chat_turn E NE prompt s) = Raise e.
Proof.
  intros Hword Hsym Htruthy Hin.
  unfold chat_turn, market_context. rewrite Hword.
  unfold st_bind at 1. cbn [append_message].
  unfold st_bind at 1. unfold st_bind at 1. unfold in_market at 1.
  cbn [market].
  destruct (find_symbol E prompt (market s)) as [r w1]. cbn [fst] in Hsym.
  subst r. rewrite Htruthy.
  unfold st_bind at 1. unfold st_lift at 1. rewrite Hin. reflexivity.
Qed.

Lemma odd_symbol_breaks_turn_number :
  fst (chat_turn search_gives_number headlines_down "zzz stock"
         initial_session) = Raise TypeError.
Proof.
  exact (odd_symbol_breaks_turn search_gives_number headlines_down
           "zzz stock" initial_session (PInt 7) TypeError
           eq_refl eq_refl eq_refl eq_refl).
Defined.

Lemma py_join_raises (sep : string) (parts : list pyval) (e : exn) :
  py_join sep parts = Raise e -> e = TypeError.
Proof.
  induction parts as [|p parts IH]; simpl; [discriminate|].
  destruct p; try (intros H; injection H as <-; reflexivity).
  destruct parts as [|p' parts']; [discriminate|].
  destruct (py_join sep (p' :: parts')); cbn; [discriminate|].
  intros H. injection H as <-. now apply IH.
Qed.

Lemma only_ret {A} (a : A) : raises_only_type_errors (st_ret a).
Proof. intros s e H. discriminate. Qed.

Lemma only_bind {A B} (m : ST session A) (k : A -> ST session B) :
  raises_only_type_errors m -> (forall a, raises_only_type_errors (k a)) ->
  raises_only_type_errors (st_bind m k).
Proof.
  intros Hm Hk s e. unfold st_bind. specialize (Hm s).
  destruct (m s) as [[a|e'] s1]; cbn [fst] in *.
  - apply Hk.
  - intros H. injection H as <-. now apply Hm.
Qed.

Lemma only_in_market {A} (m : M A) :
  (forall w, exists v w', m w = (Ok v, w')) ->
  raises_only_type_errors (in_market m).
Proof.
  intros Hm s e. unfold in_market.
  destruct (Hm (market s)) as (v & w' & ->). discriminate.
Qed.

(** X23. Whatever the network and the model do (requests that fail,
    bodies that are not what is expected, a model that cannot be built or
    called), the only exceptions that escape a chat turn are the
    [TypeError] and [AttributeError] of a symbol or a headline title
    that is not a text. *)
Theorem turn_raises_only_type_errors (E : Env) (NE : NewsEnv)
    (prompt : string) (s : session) (e : exn) :
  fst (chat_turn E NE prompt s) = Raise e ->
  e = TypeError \/ e = AttributeError.
Proof.
  revert s e. change (raises_only_type_errors (chat_turn E NE prompt)).
  unfold chat_turn.
  apply only_bind; [intros s e H; discriminate|]. intros _.
  apply only_bind.
  { unfold market_context. destruct (any_in _ _); [|apply only_ret].
    apply only_bind.
    { apply only_in_market. intros w. apply find_symbol_returns. }
    intros symbol. destruct (truthy symbol); [|apply only_ret].
    apply only_bind.
    { intros s e. unfold st_lift. cbn [fst].
      destruct symbol; cbn; intros H; try discriminate;
        injection H as <-; now left. }
    intros has_eq. apply only_bind.
    { destruct has_eq; [apply only_ret|].
      intros s e. unfold st_lift. cbn [fst].
      destruct symbol; cbn; intros H; try discriminate;
        injection H as <-; now right. }
    intros _. apply only_bind.
    { apply only_in_market. intros w. apply quote_call_returns. }
    intros [d|]; apply only_ret. }
  intros c1. apply only_bind.
  { unfold news_context. apply only_bind.
    { intros s e. unfold get_financial_news, cache_data_session.
      destruct (NewsFacts.news_body_returns NE "business" "us" 3 s)
        as [items [Hbody _]].
      rewrite Hbody.
      destruct (memo_find _ _ _) as [[t v]|]; [|discriminate].
      destruct (_ <? _)%Z; discriminate. }
    intros [|item news]; [apply only_ret|].
    apply only_bind; [|intros joined; apply only_ret].
    intros s e. unfold st_lift. cbn [fst]. intros H.
    left. exact (py_join_raises _ _ e H). }
  intros c2. apply only_bind.
  { apply only_in_market. intros w. apply generate_ai_response_never_raises. }
  intros response s e H. discriminate.
Qed.

Lemma turn_raises_only_type_errors_null_title :
  fst (chat_turn offline headlines_null_title "hello" initial_session)
  = Raise TypeError
  /\ (TypeError = TypeError \/ TypeError = AttributeError).
Proof.
  split; [reflexivity|].
  exact (turn_raises_only_type_errors offline headlines_null_title "hello"
           initial_session TypeError eq_refl).
Defined.

End EscapeFacts.
